(** * LLM abstraction core: history, client, provider registry, client factory

    A shallow embedding of [core/llm_client.py], [core/llm_client_factory.py],
    [llmcore/llm_provider_factory.py], [llmcore/llm_facade.py] and
    [core/llm_provider.py], followed by the properties of the
    provider/client abstraction core.

    Conventions of the embedding:
    - a Python [dict] whose iteration order is never observed is a [gmap];
      a [dict] whose key order reaches an error message (the provider
      registry, a model catalog) is an insertion-ordered association list;
    - code that may raise returns a [result]; state that survives a raise
      (Python never rolls back) is threaded through both outcomes;
    - [except Exception] is the handler of [try_except]; exceptions are the
      instances of [Exception], identified by class name and [str(e)]. *)

From stdpp Require Import base strings list gmap.

Open Scope string_scope.
Open Scope list_scope.
Open Scope nat_scope.

(** ** Python values *)

(** The values a JSON document or a keyword argument can hold. A [PyDict]
    lists its items in insertion order, each key once. *)
#[local] Unset Elimination Schemes.
Inductive pyval : Type :=
| PyNone
| PyBool (b : bool)
| PyInt (z : Z)
| PyStr (s : string)
| PyList (l : list pyval)
| PyDict (d : list (string * pyval)).
#[local] Set Elimination Schemes.

(** Python truthiness, as tested by [if x] and [x and y]. *)
Definition truthy (v : pyval) : bool :=
  match v with
  | PyNone => false
  | PyBool b => b
  | PyInt z => negb (z =? 0)%Z
  | PyStr s => negb (String.eqb s "")
  | PyList l => match l with [] => false | _ => true end
  | PyDict d => match d with [] => false | _ => true end
  end.

(** [l[start:]] for a list [l] and an integer [start] (negative indices count
    from the end and are clamped at the front, as in Python). *)
Definition py_slice_from {A : Type} (start : Z) (l : list A) : list A :=
  let len := Z.of_nat (length l) in
  let i := if (start <? 0)%Z then Z.max 0 (len + start) else Z.min start len in
  drop (Z.to_nat i) l.

(** [''.join(parts)] *)
Definition py_join (parts : list string) : string :=
  foldr String.append "" parts.

(** ** Exceptions and results *)

Inductive exn : Type :=
| Exception (cls : string) (msg : string).

(** [str(e)] *)
Definition str_exn (e : exn) : string :=
  match e with Exception _ msg => msg end.

Definition ValueError (msg : string) : exn := Exception "ValueError" msg.
Definition AttributeError (msg : string) : exn := Exception "AttributeError" msg.
(** [str(KeyError(k))] is the [repr] of the key. *)
Definition KeyError (key : string) : exn :=
  Exception "KeyError" ("'" +:+ key +:+ "'").

Inductive result (A : Type) : Type :=
| Ok (a : A)
| Raise (e : exn).
Arguments Ok {A} a.
Arguments Raise {A} e.

(** ** State-and-exception computations *)

(** A computation over a state [S]: it returns or raises, and either way
    leaves a state behind. *)
Definition M (S A : Type) : Type := S -> result A * S.

Definition ret {S A : Type} (a : A) : M S A := fun s => (Ok a, s).
Definition raise {S A : Type} (e : exn) : M S A := fun s => (Raise e, s).
Definition bind {S A B : Type} (m : M S A) (k : A -> M S B) : M S B :=
  fun s => match m s with
           | (Ok a, s') => k a s'
           | (Raise e, s') => (Raise e, s')
           end.
(** [try: body  except Exception as e: handler(e)] *)
Definition try_except {S A : Type} (body : M S A) (handler : exn -> M S A)
  : M S A :=
  fun s => match body s with
           | (Ok a, s') => (Ok a, s')
           | (Raise e, s') => handler e s'
           end.
Definition get_state {S : Type} : M S S := fun s => (Ok s, s).
Definition modify {S : Type} (f : S -> S) : M S unit := fun s => (Ok tt, f s).
(** [if c: body] with no [else]. *)
Definition when {S : Type} (c : bool) (body : M S unit) : M S unit :=
  if c then body else ret tt.

(** A step that only returns or raises. *)
Definition lift_result {S A : Type} (r : result A) : M S A :=
  fun s => (r, s).

(** [x is None], and the truth value of a list. *)
Definition is_None {A : Type} (o : option A) : bool :=
  match o with None => true | Some _ => false end.
Definition nonempty_list {A : Type} (l : list A) : bool :=
  match l with [] => false | _ => true end.

Declare Scope py_scope.
Delimit Scope py_scope with py.
Notation "x <- m ;; k" := (bind m (fun x => k))
  (at level 100, m at next level, right associativity) : py_scope.
Notation "m ;;; k" := (bind m (fun _ => k))
  (at level 100, right associativity) : py_scope.

(** ** [llm_facade.py]: responses *)

Module LLMResponse.
Record t : Type := mk {
  content : string;
  model : string;
  provider : string;
  usage : option (gmap string Z);
  metadata : option (gmap string pyval);
  timestamp : nat;
  error : option string
}.

(** The dataclass constructor with [__post_init__]: an absent timestamp is
    replaced by the clock reading [now]. *)
Definition init (now : nat) (content model provider : string)
    (usage : option (gmap string Z)) (metadata : option (gmap string pyval))
    (timestamp : option nat) (error : option string) : t :=
  mk content model provider usage metadata
     (match timestamp with Some ts => ts | None => now end) error.
End LLMResponse.

(** ** [llm_client.py]: interaction history *)

(** A chat message, a [Dict[str, str]]. *)
Abbreviation message := (gmap string string).

Definition role_message (role content : string) : message :=
  <["content" := content]> (<["role" := role]> ∅).
Definition user_message : string -> message := role_message "user".
Definition assistant_message : string -> message := role_message "assistant".

(** [collections.deque(maxlen=maxlen).append(x)]: the item goes to the right
    end, then the left end is dropped if the length exceeds [maxlen]. *)
Definition deque_append {A : Type} (maxlen : nat) (d : list A) (x : A)
  : list A :=
  let d' := d ++ [x] in
  if maxlen <? length d' then drop 1 d' else d'.

Module LLMInteractionHistory.
(** One entry of the deque: the dictionary built by [add_interaction]. *)
Record interaction : Type := mk_interaction {
  prompt : string;
  response : string;
  model : string;
  provider : string;
  timestamp : nat;
  usage : option (gmap string Z)
}.

Record t : Type := mk {
  max_history : Z;
  _history : list interaction
}.

(** [__init__]: [deque(maxlen=max_history)] refuses a negative bound. *)
Definition init (max_history : Z) : result t :=
  if (max_history <? 0)%Z
  then Raise (ValueError "maxlen must be non-negative")
  else Ok (mk max_history []).

Definition entry_of (prompt : string) (r : LLMResponse.t) : interaction :=
  mk_interaction prompt (LLMResponse.content r) (LLMResponse.model r)
    (LLMResponse.provider r) (LLMResponse.timestamp r) (LLMResponse.usage r).

Definition add_interaction (prompt : string) (r : LLMResponse.t) (h : t) : t :=
  mk (max_history h)
     (deque_append (Z.to_nat (max_history h)) (_history h) (entry_of prompt r)).

Definition get_history (n : option Z) (h : t) : list interaction :=
  match n with
  | None => _history h
  | Some n => py_slice_from (- n) (_history h)
  end.

Definition get_as_messages (n : option Z) (h : t) : list message :=
  foldl (fun messages i =>
           (messages ++ [user_message (prompt i)])
             ++ [assistant_message (response i)])
        [] (get_history n h).

Definition clear (h : t) : t := mk (max_history h) [].
Definition size (h : t) : nat := length (_history h).
Definition is_empty (h : t) : bool := length (_history h) =? 0.
End LLMInteractionHistory.

(** ** The environment of the core *)

Inductive level : Type := INFO | WARNING | ERROR.

(** A call received by a facade, with the arguments it was given. *)
Inductive facade_call : Type :=
| CallGenerate (prompt : string) (params : gmap string pyval)
| CallGenerateStream (prompt : string) (params : gmap string pyval)
| CallChat (messages : list message) (params : gmap string pyval)
| CallChatStream (messages : list message) (params : gmap string pyval).

(** What the core reads from and writes to outside its own objects: the
    records handed to [logging], the reading that [datetime.now()] gives
    while an operation runs (the operations do not advance it), the calls
    that reached a facade (oldest first), [os.environ], and the number of
    provider objects allocated so far (an object's identity is its
    allocation number). *)
Record world : Type := mk_world {
  logs : list (level * string);
  now : nat;
  facade_calls : list facade_call;
  environ : gmap string string;
  next_id : nat
}.

Definition log_record (l : level) (msg : string) (w : world) : world :=
  mk_world (logs w ++ [(l, msg)]) (now w) (facade_calls w) (environ w)
           (next_id w).
Definition record_call (c : facade_call) (w : world) : world :=
  mk_world (logs w) (now w) (facade_calls w ++ [c]) (environ w) (next_id w).
Definition allocate (w : world) : world :=
  mk_world (logs w) (now w) (facade_calls w) (environ w) (S (next_id w)).

(** ** [llm_facade.py]: the facade contract *)

Module LLMFacade.
(** The iterator returned by a streaming method, reduced to what a consumer
    can observe of it: the finitely many fragments it yields, in order, and
    whether it then stops or raises. *)
Record stream : Type := mk_stream {
  chunks : list string;
  failure : option exn
}.

Section WithState.
Context {FS : Type}.

(** A facade object: its attributes, its private mutable state [attrs], and
    the four abstract methods. A method stands for the whole call expression
    [facade.m(x, **params)] once the arguments are bound. *)
Record t : Type := mk {
  model_name : string;
  provider_name : string;
  api_key : option string;
  config : gmap string pyval;
  attrs : FS;
  generate : string -> gmap string pyval -> M FS LLMResponse.t;
  generate_stream : string -> gmap string pyval -> M FS stream;
  chat : list message -> gmap string pyval -> M FS LLMResponse.t;
  chat_stream : list message -> gmap string pyval -> M FS stream
}.

Definition set_attrs (a : FS) (f : t) : t :=
  mk (model_name f) (provider_name f) (api_key f) (config f) a
     (generate f) (generate_stream f) (chat f) (chat_stream f).
End WithState.
Arguments t : clear implicits.
End LLMFacade.

(** Binding [f(x, **params)] to [def f(self, x_name, **kwargs)] fails when
    [params] names a positional parameter again. *)
Definition rebinds (callee x_name : string) (params : gmap string pyval)
  : option exn :=
  match params !! "self", params !! x_name with
  | Some _, _ =>
      Some (Exception "TypeError"
              (callee +:+ "() got multiple values for argument 'self'"))
  | None, Some _ =>
      Some (Exception "TypeError"
              (callee +:+ "() got multiple values for argument '"
                 +:+ x_name +:+ "'"))
  | None, None => None
  end.

(** ** [llm_client.py]: the client *)

Module LLMClient.
Section WithState.
Context {FS : Type}.

Record t : Type := mk {
  facade : LLMFacade.t FS;
  history : LLMInteractionHistory.t;
  _default_params : gmap string pyval
}.

(** [__init__] *)
Definition init (facade : LLMFacade.t FS) (history_size : Z) : result t :=
  match LLMInteractionHistory.init history_size with
  | Ok h => Ok (mk facade h ∅)
  | Raise e => Raise e
  end.

(** A method of the client runs on the client object and the environment. *)
Record state : Type := mk_state {
  self : t;
  env : world
}.

Definition set_history (h : LLMInteractionHistory.t) (s : state) : state :=
  mk_state (mk (facade (self s)) h (_default_params (self s))) (env s).
Definition set_facade_attrs (a : FS) (s : state) : state :=
  mk_state (mk (LLMFacade.set_attrs a (facade (self s))) (history (self s))
               (_default_params (self s)))
           (env s).
Definition set_env (w : world) (s : state) : state := mk_state (self s) w.

(** [self.logger.error(msg)] *)
Definition logger_error (msg : string) : M state unit :=
  modify (fun s => set_env (log_record ERROR msg (env s)) s).

(** [self.history.add_interaction(prompt, response)] *)
Definition history_add (prompt : string) (r : LLMResponse.t) : M state unit :=
  modify (fun s =>
            set_history
              (LLMInteractionHistory.add_interaction prompt r
                 (history (self s))) s).

(** [self.facade.m(x, **params)]: bind the arguments, note the call, run the
    method on the facade's state. *)
Definition invoke {X A : Type} (callee x_name : string)
    (method : LLMFacade.t FS -> X -> gmap string pyval -> M FS A)
    (call : X -> gmap string pyval -> facade_call)
    (x : X) (params : gmap string pyval) : M state A :=
  fun s =>
    match rebinds callee x_name params with
    | Some e => (Raise e, s)
    | None =>
        let f := facade (self s) in
        let '(r, a) := method f x params (LLMFacade.attrs f) in
        (r, set_facade_attrs a
              (set_env (record_call (call x params) (env s)) s))
    end.

Definition facade_generate :=
  invoke "generate" "prompt" LLMFacade.generate CallGenerate.
Definition facade_generate_stream :=
  invoke "generate_stream" "prompt" LLMFacade.generate_stream
         CallGenerateStream.
Definition facade_chat :=
  invoke "chat" "messages" LLMFacade.chat CallChat.
Definition facade_chat_stream :=
  invoke "chat_stream" "messages" LLMFacade.chat_stream CallChatStream.

(** [{**self._default_params, **kwargs}]: the right operand wins. *)
Definition merged_params (kwargs : gmap string pyval) (s : state)
  : gmap string pyval :=
  kwargs ∪ _default_params (self s).

(** [LLMResponse(content=..., model=self.facade.model_name,
    provider=self.facade.provider_name, error=...)] *)
Definition own_response (content : string) (error : option string)
  : M state LLMResponse.t :=
  (s <- get_state;;
   ret (LLMResponse.init (now (env s)) content
          (LLMFacade.model_name (facade (self s)))
          (LLMFacade.provider_name (facade (self s)))
          None None None error))%py.

(** The choice shared by [generate] and [generate_stream]: with
    [use_history] and a non-empty history the facade is asked through its
    chat method, on the rendered history followed by the prompt; otherwise
    through its plain method, on the prompt. *)
Definition ask {A : Type}
    (chat_method : list message -> gmap string pyval -> M state A)
    (plain_method : string -> gmap string pyval -> M state A)
    (prompt : string) (use_history : bool) (params : gmap string pyval)
  : M state A :=
  (s <- get_state;;
   if use_history && negb (LLMInteractionHistory.is_empty (history (self s)))
   then
     let messages :=
       LLMInteractionHistory.get_as_messages None (history (self s))
         ++ [user_message prompt] in
     chat_method messages params
   else plain_method prompt params)%py.

Definition generate (prompt : string) (use_history save_to_history : bool)
    (kwargs : gmap string pyval) : M state LLMResponse.t :=
  try_except
    (s <- get_state;;
     let params := merged_params kwargs s in
     response <- ask facade_chat facade_generate prompt use_history params;;
     when (save_to_history && is_None (LLMResponse.error response))
          (history_add prompt response);;;
     ret response)%py
    (fun e =>
       logger_error ("Error generating response: " +:+ str_exn e);;;
       own_response "" (Some (str_exn e)))%py.

(** [next((m['content'] for m in reversed(messages)
          if m.get('role') == 'user'), '')] *)
Fixpoint first_user_content (reversed : list message) : result string :=
  match reversed with
  | [] => Ok ""
  | m :: rest =>
      if bool_decide (m !! "role" = Some "user") then
        match m !! "content" with
        | Some c => Ok c
        | None => Raise (KeyError "content")
        end
      else first_user_content rest
  end.

Definition chat (messages : list message) (save_to_history : bool)
    (kwargs : gmap string pyval) : M state LLMResponse.t :=
  try_except
    (s <- get_state;;
     let params := merged_params kwargs s in
     response <- facade_chat messages params;;
     when (save_to_history && is_None (LLMResponse.error response)
           && nonempty_list messages)
          (user_msg <- lift_result (first_user_content (reverse messages));;
           when (negb (String.eqb user_msg ""))
                (history_add user_msg response));;;
     ret response)%py
    (fun e =>
       logger_error ("Error in chat: " +:+ str_exn e);;;
       own_response "" (Some (str_exn e)))%py.

(** [self.chat(messages, **kwargs)] from [multi_shot_generate]: a
    [save_to_history] among the keyword arguments binds to the parameter of
    that name, a [messages] (or [self]) among them collides with the
    positional argument. *)
Definition multi_shot_generate (prompt : string) (n_shots : Z)
    (kwargs : gmap string pyval) : M state LLMResponse.t :=
  (s <- get_state;;
   let messages :=
     LLMInteractionHistory.get_as_messages (Some n_shots) (history (self s))
       ++ [user_message prompt] in
   match rebinds "LLMClient.chat" "messages" kwargs with
   | Some e => raise e
   | None =>
       chat messages
            (match kwargs !! "save_to_history" with
             | Some v => truthy v
             | None => true
             end)
            (delete "save_to_history" kwargs)
   end)%py.

(** The generator object made by [generate_stream]. Calling the generator
    function runs none of its body; each [next] runs it to the following
    [yield] or to its end. The constructors are the places where the body
    can be suspended, with the local variables still in use there. *)
Inductive generator : Type :=
| Created (prompt : string) (use_history save_to_history : bool)
          (kwargs : gmap string pyval)
| AtYieldChunk (prompt : string) (save_to_history : bool)
               (full_response : list string) (stream : LLMFacade.stream)
| AtYieldError
| Finished.

Definition generate_stream (prompt : string)
    (use_history save_to_history : bool) (kwargs : gmap string pyval)
  : generator :=
  Created prompt use_history save_to_history kwargs.

(** The [except] clause of the generator: log, then yield the marker. *)
Definition stream_handler (e : exn) : M state (option string * generator) :=
  (logger_error ("Error in streaming generation: " +:+ str_exn e);;;
   ret (Some ("Error: " +:+ str_exn e), AtYieldError))%py.

(** The [for chunk in stream] loop from its head: either the next fragment
    is appended to [full_response] and yielded, or the iterator raises and
    the handler runs, or it is exhausted and the body falls through to the
    recording of the interaction and to the end of the generator. *)
Definition resume_loop (prompt : string) (save_to_history : bool)
    (full_response : list string) (stream : LLMFacade.stream)
  : M state (option string * generator) :=
  match LLMFacade.chunks stream with
  | chunk :: rest =>
      ret (Some chunk,
           AtYieldChunk prompt save_to_history (full_response ++ [chunk])
             (LLMFacade.mk_stream rest (LLMFacade.failure stream)))
  | [] =>
      match LLMFacade.failure stream with
      | Some e => stream_handler e
      | None =>
          (when save_to_history
                (response <- own_response (py_join full_response) None;;
                 history_add prompt response);;;
           ret (None, Finished))%py
      end
  end.

(** [next(g)]: [Some chunk] is a yielded fragment, [None] is
    [StopIteration]. *)
Definition next (g : generator) : M state (option string * generator) :=
  match g with
  | Created prompt use_history save_to_history kwargs =>
      (s <- get_state;;
       let params := merged_params kwargs s in
       try_except
         (stream <-
            ask facade_chat_stream facade_generate_stream prompt use_history
                params;;
          resume_loop prompt save_to_history [] stream)
         stream_handler)%py
  | AtYieldChunk prompt save_to_history full_response stream =>
      resume_loop prompt save_to_history full_response stream
  | AtYieldError => ret (None, Finished)
  | Finished => ret (None, Finished)
  end.

(** A caller that pulls fragments until [StopIteration]:
    [list(client.generate_stream(...))]. [fuel] bounds the number of pulls;
    [None] means the bound was reached first. *)
Fixpoint consume (fuel : nat) (g : generator) (s : state)
  : option (result (list string) * state) :=
  match fuel with
  | 0 => None
  | S fuel' =>
      match next g s with
      | (Ok (Some chunk, g'), s') =>
          match consume fuel' g' s' with
          | Some (Ok received, s'') => Some (Ok (chunk :: received), s'')
          | other => other
          end
      | (Ok (None, _), s') => Some (Ok [], s')
      | (Raise e, s') => Some (Raise e, s')
      end
  end.

(** [self._default_params.update(kwargs)] *)
Definition set_default_params (kwargs : gmap string pyval) : M state unit :=
  modify (fun s =>
            mk_state (mk (facade (self s)) (history (self s))
                         (kwargs ∪ _default_params (self s)))
                     (env s)).

Definition get_history (n : option Z) : M state (list LLMInteractionHistory.interaction) :=
  (s <- get_state;;
   ret (LLMInteractionHistory.get_history n (history (self s))))%py.

Definition clear_history : M state unit :=
  modify (fun s =>
            set_history (LLMInteractionHistory.clear (history (self s))) s).
End WithState.
Arguments t : clear implicits.
Arguments state : clear implicits.
End LLMClient.

(** ** Text helpers *)

(** [str.lower()] and [str.upper()] on the ASCII letters; provider names
    are taken to be ASCII. *)
Definition ascii_lower (c : Ascii.ascii) : Ascii.ascii :=
  let n := Ascii.nat_of_ascii c in
  if (65 <=? n) && (n <=? 90) then Ascii.ascii_of_nat (n + 32) else c.
Definition ascii_upper (c : Ascii.ascii) : Ascii.ascii :=
  let n := Ascii.nat_of_ascii c in
  if (97 <=? n) && (n <=? 122) then Ascii.ascii_of_nat (n - 32) else c.
Fixpoint map_string (f : Ascii.ascii -> Ascii.ascii) (s : string) : string :=
  match s with
  | EmptyString => EmptyString
  | String c rest => String (f c) (map_string f rest)
  end.
Definition lower : string -> string := map_string ascii_lower.
Definition upper : string -> string := map_string ascii_upper.

(** [repr] of a list of strings as an f-string prints it, for strings that
    need no escaping. *)
Fixpoint py_join_with (sep : string) (parts : list string) : string :=
  match parts with
  | [] => ""
  | [p] => p
  | p :: rest => p +:+ sep +:+ py_join_with sep rest
  end.
Definition repr_str (s : string) : string := "'" +:+ s +:+ "'".
Definition repr_list (l : list string) : string :=
  "[" +:+ py_join_with ", " (map repr_str l) +:+ "]".

(** ** Insertion-ordered dictionaries *)

Fixpoint dict_get {V : Type} (k : string) (d : list (string * V)) : option V :=
  match d with
  | [] => None
  | (k', v) :: rest => if String.eqb k k' then Some v else dict_get k rest
  end.
(** [d[k] = v]: an existing key keeps its place, a new key goes last. *)
Fixpoint dict_set {V : Type} (k : string) (v : V) (d : list (string * V))
  : list (string * V) :=
  match d with
  | [] => [(k, v)]
  | (k', v') :: rest =>
      if String.eqb k k' then (k', v) :: rest else (k', v') :: dict_set k v rest
  end.
Definition dict_keys {V : Type} (d : list (string * V)) : list string :=
  map fst d.

(** ** [llm_provider.py]: the provider contract *)

Module LLMProvider.
Section WithState.
Context {FS : Type}.

(** What a provider class determines of its instances: the attributes set
    by [__init__], and the abstract methods [get_available_models] and
    [create_facade], each a function of its arguments that returns or
    raises. *)
Record body : Type := mk_body {
  provider_name : string;
  api_key : option string;
  config : option pyval;
  get_available_models : result (list string);
  create_facade : string -> gmap string pyval -> result (LLMFacade.t FS)
}.

(** A provider object: a body and the identity of the object. *)
Record t : Type := mk {
  ident : nat;
  impl : body
}.

(** [model_name in self.get_available_models()] *)
Definition supports_model (model_name : string) (p : t) : result bool :=
  match get_available_models (impl p) with
  | Ok available => Ok (existsb (String.eqb model_name) available)
  | Raise e => Raise e
  end.

(** A provider class, called as
    [provider_class(provider_name=..., api_key=..., config=...)]. *)
Definition class : Type :=
  string -> option string -> option pyval -> result body.
End WithState.
Arguments body : clear implicits.
Arguments t : clear implicits.
Arguments class : clear implicits.
End LLMProvider.

(** ** [llm_provider_factory.py]: registry and cache of providers *)

Module LLMProviderFactory.
Section WithState.
Context {FS : Type}.

Record t : Type := mk {
  _provider_registry : list (string * LLMProvider.class FS);
  _provider_instances : gmap string (LLMProvider.t FS)
}.

Record state : Type := mk_state {
  self : t;
  env : world
}.

Definition logger_info (msg : string) : M state unit :=
  modify (fun s => mk_state (self s) (log_record INFO msg (env s))).

Definition register_provider (provider_name : string)
    (provider_class : LLMProvider.class FS) : M state unit :=
  (modify (fun s =>
             mk_state
               (mk (dict_set (lower provider_name) provider_class
                      (_provider_registry (self s)))
                   (_provider_instances (self s)))
               (env s));;;
   logger_info ("Registered provider: " +:+ provider_name))%py.

(** [provider_class(...)]: a new object takes the next identity. *)
Definition instantiate (provider_class : LLMProvider.class FS)
    (provider_name : string) (api_key : option string)
    (config : option pyval) : M state (LLMProvider.t FS) :=
  fun s =>
    match provider_class provider_name api_key config with
    | Ok b =>
        (Ok (LLMProvider.mk (next_id (env s)) b),
         mk_state (self s) (allocate (env s)))
    | Raise e => (Raise e, s)
    end.

Definition get_provider (provider_name : string) (api_key : option string)
    (config : option pyval) (use_cache : bool) : M state (LLMProvider.t FS) :=
  (s <- get_state;;
   let provider_key := lower provider_name in
   match (if use_cache then _provider_instances (self s) !! provider_key
          else None) with
   | Some cached => ret cached
   | None =>
       match dict_get provider_key (_provider_registry (self s)) with
       | None =>
           raise (ValueError
                    ("Provider '" +:+ provider_name +:+ "' not registered. "
                       +:+ "Available providers: "
                       +:+ repr_list (dict_keys (_provider_registry (self s)))))
       | Some provider_class =>
           let api_key :=
             match api_key with
             | Some k => Some k
             | None => environ (env s) !! (upper provider_name +:+ "_API_KEY")
             end in
           provider <- instantiate provider_class provider_name api_key config;;
           when use_cache
                (modify (fun s =>
                           mk_state
                             (mk (_provider_registry (self s))
                                 (<[provider_key := provider]>
                                    (_provider_instances (self s))))
                             (env s)));;;
           ret provider
       end
   end)%py.

Definition get_available_providers : M state (list string) :=
  (s <- get_state;; ret (dict_keys (_provider_registry (self s))))%py.


(** [clear_cache]: [if provider_name:] treats the empty name like [None]. *)
Definition clear_cache (provider_name : option string) : M state unit :=
  modify (fun s =>
            mk_state
              (mk (_provider_registry (self s))
                  (match provider_name with
                   | Some (String c rest) =>
                       delete (lower (String c rest))
                              (_provider_instances (self s))
                   | _ => ∅
                   end))
              (env s)).
End WithState.
Arguments t : clear implicits.
Arguments state : clear implicits.
End LLMProviderFactory.

(** ** [llm_client_factory.py]: the client factory *)

Module LLMClientFactory.
Section WithState.
Context {FS : Type}.

(** The attributes of the singleton. [_config] is whatever [json.load]
    returned. *)
Record t : Type := mk {
  _config : option pyval;
  _default_provider : option string;
  _default_model : option string
}.

(** The factory runs on its own attributes, on the provider factory it
    holds a reference to, and on the environment. *)
Record state : Type := mk_state {
  self : t;
  provider_factory : LLMProviderFactory.t FS;
  env : world
}.

Definition logger (l : level) (msg : string) : M state unit :=
  modify (fun s =>
            mk_state (self s) (provider_factory s) (log_record l msg (env s))).

(** A method of the provider factory, run from the client factory. *)
Definition on_provider_factory {A : Type}
    (m : M (LLMProviderFactory.state FS) A) : M state A :=
  fun s =>
    let '(r, ps) :=
      m (LLMProviderFactory.mk_state (provider_factory s) (env s)) in
    (r, mk_state (self s) (LLMProviderFactory.self ps)
                 (LLMProviderFactory.env ps)).

Definition set_defaults (provider model : string) : M state unit :=
  (modify (fun s =>
             mk_state (mk (_config (self s)) (Some provider) (Some model))
                      (provider_factory s) (env s));;;
   logger INFO ("Set defaults - provider: " +:+ provider +:+ ", model: "
                  +:+ model))%py.

(** [d.get(key, default)] on a value that should be a [dict]. *)
Definition py_get (v : pyval) (key : string) (default : pyval) : result pyval :=
  match v with
  | PyDict d =>
      Ok (match dict_get key d with Some x => x | None => default end)
  | _ => Raise (AttributeError "object has no attribute 'get'")
  end.

(** A default read from the configuration: a string, or [null]. Other JSON
    values do not inhabit [Optional[str]] and are read as [None]. *)
Definition as_optional_str (v : pyval) : option string :=
  match v with PyStr s => Some s | _ => None end.

(** [load_config], from the outcome of [open] and [json.load] on the path:
    the parsed document, or the exception they raised. *)
Definition load_config (config_path : string) (loaded : result pyval)
  : M state unit :=
  try_except
    (parsed <- lift_result loaded;;
     modify (fun s =>
               mk_state (mk (Some parsed) (_default_provider (self s))
                            (_default_model (self s)))
                        (provider_factory s) (env s));;;
     defaults <- lift_result (py_get parsed "defaults" (PyDict []));;
     provider <- lift_result (py_get defaults "provider" (PyStr "mock"));;
     modify (fun s =>
               mk_state (mk (_config (self s)) (as_optional_str provider)
                            (_default_model (self s)))
                        (provider_factory s) (env s));;;
     model <- lift_result (py_get defaults "model" (PyStr "mock-model"));;
     modify (fun s =>
               mk_state (mk (_config (self s)) (_default_provider (self s))
                            (as_optional_str model))
                        (provider_factory s) (env s));;;
     logger INFO ("Loaded configuration from " +:+ config_path);;;
     s <- get_state;;
     logger INFO ("Default provider: "
                    +:+ default "None" (_default_provider (self s))
                    +:+ ", model: "
                    +:+ default "None" (_default_model (self s))))%py
    (fun e =>
       logger ERROR ("Error loading config: " +:+ str_exn e);;;
       raise e)%py.

(** Steps 3 to 5 of [create_client], the body of its [try]. *)
Definition build_client (provider_name model_name : string)
    (api_key : option string) (history_size : Z)
    (kwargs : gmap string pyval) : M state (LLMClient.t FS) :=
  (provider <-
     on_provider_factory
       (LLMProviderFactory.get_provider provider_name api_key
          (kwargs !! "provider_config") true);;
   supported <- lift_result (LLMProvider.supports_model model_name provider);;
   when (negb supported)
        (available <-
           lift_result
             (LLMProvider.get_available_models (LLMProvider.impl provider));;
         raise (ValueError
                  ("Model '" +:+ model_name
                     +:+ "' not supported by provider '" +:+ provider_name
                     +:+ "'. " +:+ "Available models: "
                     +:+ repr_list available)));;;
   facade <-
     lift_result
       (LLMProvider.create_facade (LLMProvider.impl provider) model_name
          kwargs);;
   client <- lift_result (LLMClient.init facade history_size);;
   logger INFO ("Created client: provider=" +:+ provider_name +:+ ", model="
                  +:+ model_name);;;
   ret client)%py.

(** The condition of the fallback:
    [self._config and self._config.get('fallback_to_mock', False)
     and provider_name != 'mock'], evaluated left to right. *)
Definition fallback_applies (config : option pyval) (provider_name : string)
  : result bool :=
  match config with
  | None => Ok false
  | Some c =>
      if truthy c then
        match py_get c "fallback_to_mock" (PyBool false) with
        | Ok flag => Ok (truthy flag && negb (String.eqb provider_name "mock"))
        | Raise e => Raise e
        end
      else Ok false
  end.

(** [create_client]. The function calls itself in its [except] clause;
    [fuel] bounds the depth of the calls, and [None] means that the bound
    was reached. *)
Fixpoint create_client (fuel : nat) (provider_name model_name : option string)
    (api_key : option string) (history_size : Z)
    (kwargs : gmap string pyval) (s : state)
  : option (result (LLMClient.t FS) * state) :=
  match fuel with
  | 0 => None
  | S fuel' =>
      match (match provider_name with
             | Some p => Some p
             | None => _default_provider (self s)
             end) with
      | None =>
          Some (Raise (ValueError
                         "No provider specified and no default configured"), s)
      | Some provider_name =>
          match (match model_name with
                 | Some m => Some m
                 | None => _default_model (self s)
                 end) with
          | None =>
              Some (Raise (ValueError
                             "No model specified and no default configured"), s)
          | Some model_name =>
              match build_client provider_name model_name api_key
                      history_size kwargs s with
              | (Ok client, s1) => Some (Ok client, s1)
              | (Raise e, s1) =>
                  match logger ERROR
                          ("Error creating client: " +:+ str_exn e) s1 with
                  | (_, s2) =>
                      match fallback_applies (_config (self s2))
                              provider_name with
                      | Raise e' => Some (Raise e', s2)
                      | Ok true =>
                          match logger WARNING
                                  "Falling back to mock provider" s2 with
                          | (_, s3) =>
                              create_client fuel' (Some "mock")
                                (Some "mock-model") None history_size ∅ s3
                          end
                      | Ok false => Some (Raise e, s2)
                      end
                  end
              end
          end
      end
  end.

Definition get_default_provider : M state (option string) :=
  (s <- get_state;; ret (_default_provider (self s)))%py.
Definition get_default_model : M state (option string) :=
  (s <- get_state;; ret (_default_model (self s)))%py.
End WithState.
Arguments t : clear implicits.
Arguments state : clear implicits.
End LLMClientFactory.

(** * Vocabulary of the statements *)

Section HistoryVocabulary.
Import LLMInteractionHistory.

(** The last [n] elements of a list. *)
Definition last_n {A : Type} (n : nat) (l : list A) : list A :=
  drop (length l - n) l.

(** Adding a sequence of prompt/response pairs, oldest first. *)
Definition add_all (xs : list (string * LLMResponse.t)) (h : t) : t :=
  foldl (fun h x => add_interaction (fst x) (snd x) h) h xs.

(** The entries that a sequence of additions hands to the deque. *)
Definition entries (xs : list (string * LLMResponse.t)) : list interaction :=
  map (fun x => entry_of (fst x) (snd x)) xs.

(** The bound of the data model: the deque never holds more than
    [max_history] entries. *)
Definition within_capacity (h : t) : Prop :=
  size h <= Z.to_nat (max_history h).

(** The two messages that an interaction is rendered as. *)
Definition rendered (i : interaction) : list message :=
  [user_message (prompt i); assistant_message (response i)].
End HistoryVocabulary.

Section ClientVocabulary.
Context {FS : Type}.
Import LLMClient.

Implicit Types (s : state FS).

(** An [error] that is set and is not the empty text. *)
Definition nonempty_error (r : LLMResponse.t) : Prop :=
  exists msg, LLMResponse.error r = Some msg /\ msg <> "".

(** The state in which the generator leaves the client when its loop ends
    without an exception: with [save_to_history], the interaction built from
    the joined fragments has been added. *)
Definition recorded (prompt : string) (save_to_history : bool)
    (full_response : list string) s : state FS :=
  if save_to_history then
    set_history
      (LLMInteractionHistory.add_interaction prompt
         (LLMResponse.init (now (env s)) (py_join full_response)
            (LLMFacade.model_name (facade (self s)))
            (LLMFacade.provider_name (facade (self s)))
            None None None None)
         (history (self s)))
      s
  else s.

(** The state in which the handler of the generator leaves the client. *)
Definition reported (e : exn) s : state FS :=
  set_env (log_record ERROR ("Error in streaming generation: " +:+ str_exn e)
             (env s)) s.

(** What the caller receives after the facade's fragments: nothing more
    when the iterator stops, the error marker when it raises. *)
Definition closing (failure : option exn) : list string :=
  match failure with
  | None => []
  | Some e => ["Error: " +:+ str_exn e]
  end.

(** The state in which an exhausted generator leaves the client. *)
Definition closed (prompt : string) (save_to_history : bool)
    (full_response : list string) (failure : option exn) s : state FS :=
  match failure with
  | None => recorded prompt save_to_history full_response s
  | Some e => reported e s
  end.

(** The iterator that the generator works on: the one the facade call
    returned, or, when the call itself raised, one that raises before any
    fragment; the same [except] clause serves both. *)
Definition opened (outcome : result LLMFacade.stream) : LLMFacade.stream :=
  match outcome with
  | Ok stream => stream
  | Raise e => LLMFacade.mk_stream [] (Some e)
  end.
End ClientVocabulary.

Section ClientFactoryVocabulary.
Context {FS : Type}.
Import LLMClientFactory.

Implicit Types (s : state FS).

(** Steps 1 and 2: an explicit name, else the configured default. *)
Definition resolved (explicit configured : option string) : option string :=
  match explicit with
  | Some name => Some name
  | None => configured
  end.

(** The states after [self.logger.error(f"Error creating client: ...")] and
    after [self.logger.warning("Falling back to mock provider")]. *)
Definition logged (e : exn) s : state FS :=
  mk_state (self s) (provider_factory s)
           (log_record ERROR ("Error creating client: " +:+ str_exn e) (env s)).
Definition warned s : state FS :=
  mk_state (self s) (provider_factory s)
           (log_record WARNING "Falling back to mock provider" (env s)).

(** The number of fallback warnings logged so far. *)
Definition is_fallback_warning (r : level * string) : bool :=
  match fst r with
  | WARNING => String.eqb (snd r) "Falling back to mock provider"
  | _ => false
  end.
Definition fallback_warnings (w : world) : nat :=
  length (List.filter is_fallback_warning (logs w)).
End ClientFactoryVocabulary.

(** * Stub implementations *)

(** Stub implementations of the facade and provider contracts, with no
    private state, on which the statements above are evaluated. *)

Definition quiet_world : world := mk_world [] 0 [] ∅ 0.

Definition answer (text : string) : LLMResponse.t :=
  LLMResponse.mk text "stub-model" "stub" None None 0 None.

(** A facade whose plain and chat methods give [reply] and whose streaming
    methods hand over the iterator [fragments]. *)
Definition scripted (reply : result LLMResponse.t)
    (fragments : LLMFacade.stream) : LLMFacade.t unit :=
  LLMFacade.mk "stub-model" "stub" None ∅ tt
    (fun _ _ a => (reply, a))
    (fun _ _ a => (Ok fragments, a))
    (fun _ _ a => (reply, a))
    (fun _ _ a => (Ok fragments, a)).

Definition no_fragments : LLMFacade.stream := LLMFacade.mk_stream [] None.

(** A client on [facade] with the default history size and the given
    stored interactions. *)
Definition client_on (facade : LLMFacade.t unit)
    (stored : list LLMInteractionHistory.interaction) : LLMClient.state unit :=
  LLMClient.mk_state
    (LLMClient.mk facade (LLMInteractionHistory.mk 50 stored) ∅)
    quiet_world.

Definition stored_entry (prompt response : string)
  : LLMInteractionHistory.interaction :=
  LLMInteractionHistory.entry_of prompt (answer response).

(** A provider class with a fixed catalog, whose facades answer ["ok"]. *)
Definition stub_provider (catalog : list string) : LLMProvider.class unit :=
  fun provider_name api_key config =>
    Ok (LLMProvider.mk_body provider_name api_key config (Ok catalog)
          (fun model_name _ =>
             if existsb (String.eqb model_name) catalog
             then Ok (scripted (Ok (answer "ok")) no_fragments)
             else Raise (ValueError
                           ("Model '" +:+ model_name +:+ "' not available. "
                              +:+ "Available models: " +:+ repr_list catalog)))).

(** The provider factory after the registration of a ['mock'] class. *)
Definition registered : LLMProviderFactory.state unit :=
  snd (LLMProviderFactory.register_provider "mock"
         (stub_provider ["mock-model"; "mock-model-large"; "mock-model-fast"])
         (LLMProviderFactory.mk_state (LLMProviderFactory.mk [] ∅)
            quiet_world)).

(** A client factory that has loaded nothing yet. *)
Definition unconfigured : LLMClientFactory.state unit :=
  LLMClientFactory.mk_state (LLMClientFactory.mk None None None)
    (LLMProviderFactory.self registered) (LLMProviderFactory.env registered).

(** The factory after [load_config] on the document
    [{"defaults": {"provider": "openai", "model": null},
      "fallback_to_mock": true}]. *)
Definition fallback_without_model : LLMClientFactory.state unit :=
  snd (LLMClientFactory.load_config "models_config.json"
         (Ok (PyDict [("defaults",
                       PyDict [("provider", PyStr "openai");
                               ("model", PyNone)]);
                      ("fallback_to_mock", PyBool true)]))
         unconfigured).

(** The factory after [load_config] on the document
    [{"fallback_to_mock": true}]. *)
Definition fallback_enabled : LLMClientFactory.state unit :=
  snd (LLMClientFactory.load_config "models_config.json"
         (Ok (PyDict [("fallback_to_mock", PyBool true)]))
         unconfigured).

(** * Properties *)

(** ** Interaction history *)

Section HistoryFacts.
Import LLMInteractionHistory.

Lemma last_n_all {A : Type} (n : nat) (l : list A) :
  length l <= n -> last_n n l = l.
Proof.
  intros Hle. unfold last_n.
  replace (length l - n) with 0 by lia. reflexivity.
Qed.

Lemma length_last_n {A : Type} (n : nat) (l : list A) :
  length (last_n n l) = Nat.min n (length l).
Proof. unfold last_n. rewrite length_drop. lia. Qed.

Lemma last_n_app_last_n {A : Type} (n : nat) (l r : list A) :
  last_n n (last_n n l ++ r) = last_n n (l ++ r).
Proof.
  destruct (decide (length l <= n)) as [Hle | Hgt].
  - by rewrite (last_n_all n l).
  - unfold last_n at 1 3. rewrite !length_app, length_last_n.
    unfold last_n.
    replace (Nat.min n (length l) + length r - n) with (length r) by lia.
    replace (length l + length r - n) with ((length l - n) + length r) by lia.
    rewrite <- (drop_app_le l r (length l - n)) by lia.
    by rewrite drop_drop.
Qed.

Lemma last_n_app_long {A : Type} (n : nat) (l r : list A) :
  n <= length r -> last_n n (l ++ r) = last_n n r.
Proof.
  intros Hle. unfold last_n. rewrite length_app.
  replace (length l + length r - n) with (length l + (length r - n)) by lia.
  rewrite drop_app_add. reflexivity.
Qed.

Lemma deque_append_last_n {A : Type} (maxlen : nat) (d : list A) (x : A) :
  length d <= maxlen -> deque_append maxlen d x = last_n maxlen (d ++ [x]).
Proof.
  intros Hle. unfold deque_append, last_n.
  rewrite length_app. simpl.
  destruct (Nat.ltb_spec maxlen (length d + 1)) as [Hlt | Hge].
  - by replace (length d + 1 - maxlen) with 1 by lia.
  - by replace (length d + 1 - maxlen) with 0 by lia.
Qed.

Lemma add_interaction_max_history (p : string) (r : LLMResponse.t) (h : t) :
  max_history (add_interaction p r h) = max_history h.
Proof. reflexivity. Qed.

Lemma add_all_max_history (xs : list (string * LLMResponse.t)) (h : t) :
  max_history (add_all xs h) = max_history h.
Proof.
  revert h. induction xs as [| x xs IH]; intros h; [reflexivity |].
  change (add_all (x :: xs) h)
    with (add_all xs (add_interaction (fst x) (snd x) h)).
  rewrite IH. apply add_interaction_max_history.
Qed.

Lemma init_within_capacity (n : Z) (h : t) :
  init n = Ok h -> max_history h = n /\ _history h = [] /\ within_capacity h.
Proof.
  unfold init. destruct (n <? 0)%Z; [discriminate |].
  intros [= <-]. unfold within_capacity, size. simpl. repeat split. lia.
Qed.

Lemma add_interaction_within_capacity (p : string) (r : LLMResponse.t) (h : t) :
  within_capacity h -> within_capacity (add_interaction p r h).
Proof.
  unfold within_capacity, size. intros Hle. simpl.
  rewrite deque_append_last_n by exact Hle.
  rewrite length_last_n. lia.
Qed.

Lemma clear_within_capacity (h : t) : within_capacity (clear h).
Proof. unfold within_capacity, size. simpl. lia. Qed.

Lemma add_all_history (xs : list (string * LLMResponse.t)) (h : t) :
  within_capacity h ->
  _history (add_all xs h)
  = last_n (Z.to_nat (max_history h)) (_history h ++ entries xs).
Proof.
  revert h. induction xs as [| x xs IH]; intros h Hcap.
  - simpl. rewrite app_nil_r. symmetry. by apply last_n_all.
  - change (add_all (x :: xs) h)
      with (add_all xs (add_interaction (fst x) (snd x) h)).
    rewrite IH by by apply add_interaction_within_capacity.
    simpl. rewrite deque_append_last_n by exact Hcap.
    rewrite last_n_app_last_n. by rewrite <- app_assoc.
Qed.
Lemma render_loop (acc : list message) (l : list interaction) :
  foldl (fun messages i =>
           (messages ++ [user_message (prompt i)])
             ++ [assistant_message (response i)]) acc l
  = acc ++ concat (map rendered l).
Proof.
  revert acc. induction l as [| i l IH]; intros acc; simpl.
  - by rewrite app_nil_r.
  - rewrite IH. by rewrite <- !app_assoc.
Qed.

Lemma get_as_messages_rendered (n : option Z) (h : t) :
  get_as_messages n h = concat (map rendered (get_history n h)).
Proof. unfold get_as_messages. by rewrite render_loop. Qed.

Lemma rendered_lookup (l : list interaction) (j : nat) :
  concat (map rendered l) !! (2 * j)
  = (fun i => user_message (prompt i)) <$> l !! j
  /\ concat (map rendered l) !! (2 * j + 1)
     = (fun i => assistant_message (response i)) <$> l !! j.
Proof.
  revert j. induction l as [| i l IH]; intros j.
  - by rewrite !lookup_nil.
  - destruct j as [| j].
    + done.
    + replace (2 * S j) with (S (S (2 * j))) by lia.
      simpl. apply IH.
Qed.

Lemma role_message_role (role content : string) :
  role_message role content !! "role" = Some role.
Proof.
  unfold role_message. rewrite lookup_insert_ne by done.
  apply lookup_insert_eq.
Qed.

Lemma role_message_content (role content : string) :
  role_message role content !! "content" = Some content.
Proof. unfold role_message. apply lookup_insert_eq. Qed.

(** C2. On a history of capacity [N >= 0], after more than [N] additions
    [size()] is [N] and [get_history()] returns the last [N] added
    interactions, oldest first. This holds from the fresh history that
    [__init__] builds and from every history within its capacity. *)
Theorem history_keeps_last_N (N : Z) (xs : list (string * LLMResponse.t)) :
  (0 <= N)%Z ->
  Z.to_nat N < length xs ->
  (exists h0, init N = Ok h0
    /\ size (add_all xs h0) = Z.to_nat N
    /\ get_history None (add_all xs h0) = last_n (Z.to_nat N) (entries xs))
  /\ (forall h, max_history h = N -> within_capacity h ->
        size (add_all xs h) = Z.to_nat N
        /\ get_history None (add_all xs h)
           = last_n (Z.to_nat N) (entries xs)).
Proof.
  intros HN Hlong.
  assert (Hgen : forall h, max_history h = N -> within_capacity h ->
            size (add_all xs h) = Z.to_nat N
            /\ get_history None (add_all xs h)
               = last_n (Z.to_nat N) (entries xs)).
  { intros h Hmax Hcap.
    assert (Hlen : length (entries xs) = length xs)
      by (unfold entries; apply length_map).
    assert (Hall : _history (add_all xs h)
                   = last_n (Z.to_nat N) (entries xs)).
    { rewrite add_all_history by exact Hcap. rewrite Hmax.
      apply last_n_app_long. lia. }
    split.
    - unfold size. rewrite Hall, length_last_n. lia.
    - exact Hall. }
  split; [| exact Hgen].
  unfold init. destruct (Z.ltb_spec N 0) as [Hneg | _]; [lia |].
  eexists. split; [reflexivity |].
  apply Hgen; [reflexivity |].
  unfold within_capacity, size. simpl. lia.
Qed.

(** C5. [get_as_messages(n)] returns twice as many messages as
    [get_history(n)] selects interactions; the messages at positions [2j]
    and [2j+1] are the user message carrying the prompt and the assistant
    message carrying the response content of the [j]-th selected
    interaction, so the roles alternate from [user] and the order is that
    of the selection. *)
Theorem as_messages_alternates (n : option Z) (h : t) :
  length (get_as_messages n h) = 2 * length (get_history n h)
  /\ (forall j,
        get_as_messages n h !! (2 * j)
        = (fun i => user_message (prompt i)) <$> get_history n h !! j
        /\ get_as_messages n h !! (2 * j + 1)
           = (fun i => assistant_message (response i))
               <$> get_history n h !! j)
  /\ (forall c, user_message c !! "role" = Some "user"
                /\ user_message c !! "content" = Some c)
  /\ (forall c, assistant_message c !! "role" = Some "assistant"
                /\ assistant_message c !! "content" = Some c).
Proof.
  rewrite get_as_messages_rendered.
  split; [| split; [| split]].
  - induction (get_history n h) as [| i l IH]; [reflexivity |].
    simpl. rewrite IH. lia.
  - apply rendered_lookup.
  - intros c. split; [apply role_message_role | apply role_message_content].
  - intros c. split; [apply role_message_role | apply role_message_content].
Qed.

(** [l[-0:]] is the whole list. *)
Lemma py_slice_from_zero {A : Type} (l : list A) : py_slice_from 0 l = l.
Proof.
  unfold py_slice_from. simpl.
  by replace (Z.min 0 (Z.of_nat (length l))) with 0%Z by lia.
Qed.

Lemma get_history_zero (h : t) : get_history (Some 0%Z) h = get_history None h.
Proof. unfold get_history. simpl. apply py_slice_from_zero. Qed.

Lemma get_as_messages_zero (h : t) :
  get_as_messages (Some 0%Z) h = get_as_messages None h.
Proof. unfold get_as_messages. by rewrite get_history_zero. Qed.
End HistoryFacts.

(** ** Client *)

Section ClientFacts.
Context {FS : Type}.
Import LLMClient.

Implicit Types (s : state FS) (kwargs params : gmap string pyval).

(** A facade call touches the facade's state and the trace of calls, and
    nothing else of the client. *)
Lemma invoke_frame {X A : Type} (callee x_name : string)
    (method : LLMFacade.t FS -> X -> gmap string pyval -> M FS A)
    (call : X -> gmap string pyval -> facade_call) (x : X) params s
    (r : result A) s' :
  invoke callee x_name method call x params s = (r, s') ->
  history (self s') = history (self s)
  /\ _default_params (self s') = _default_params (self s)
  /\ logs (env s') = logs (env s)
  /\ now (env s') = now (env s)
  /\ LLMFacade.model_name (facade (self s'))
     = LLMFacade.model_name (facade (self s))
  /\ LLMFacade.provider_name (facade (self s'))
     = LLMFacade.provider_name (facade (self s)).
Proof.
  unfold invoke. destruct (rebinds callee x_name params).
  - intros [= <- <-]. repeat split.
  - destruct (method _ x params _) as [r0 a]. intros [= <- <-].
    repeat split.
Qed.

Lemma ask_frame {A : Type} (c1 c2 p1 p2 : string)
    (m1 : LLMFacade.t FS -> list message -> gmap string pyval -> M FS A)
    (m2 : LLMFacade.t FS -> string -> gmap string pyval -> M FS A)
    k1 k2 prompt use_history params s (r : result A) s' :
  ask (invoke c1 p1 m1 k1) (invoke c2 p2 m2 k2) prompt use_history params s
  = (r, s') ->
  history (self s') = history (self s)
  /\ _default_params (self s') = _default_params (self s)
  /\ logs (env s') = logs (env s)
  /\ now (env s') = now (env s)
  /\ LLMFacade.model_name (facade (self s'))
     = LLMFacade.model_name (facade (self s))
  /\ LLMFacade.provider_name (facade (self s'))
     = LLMFacade.provider_name (facade (self s)).
Proof.
  unfold ask, bind, get_state.
  destruct (use_history && _); apply invoke_frame.
Qed.

(** When the facade call of [generate] raises [e], [generate] returns the
    response built by its handler and leaves the history alone. *)
Lemma generate_on_raise prompt use_history save_to_history kwargs s e s1 :
  ask facade_chat facade_generate prompt use_history (merged_params kwargs s) s
  = (Raise e, s1) ->
  generate prompt use_history save_to_history kwargs s
  = (Ok (LLMResponse.init (now (env s)) ""
           (LLMFacade.model_name (facade (self s)))
           (LLMFacade.provider_name (facade (self s)))
           None None None (Some (str_exn e))),
     set_env (log_record ERROR ("Error generating response: " +:+ str_exn e)
                (env s1)) s1).
Proof.
  intros Hask.
  destruct (ask_frame _ _ _ _ _ _ _ _ _ _ _ _ _ _ Hask)
    as (_ & _ & _ & Hnow & Hmodel & Hprov).
  unfold generate, try_except, bind, get_state at 1.
  rewrite Hask.
  unfold logger_error, own_response, bind, modify, get_state, ret. simpl.
  by rewrite Hnow, Hmodel, Hprov.
Qed.

(** C1 (amended). If the facade call made inside
    [generate(prompt, save_to_history=True)] raises [e], then [generate]
    does not raise: it returns a response with empty content whose error is
    set to [str(e)], and the history is unchanged. The error is a non-empty
    text whenever [str(e)] is. *)
Theorem generate_absorbs_facade_failure prompt use_history kwargs s e s1 :
  ask facade_chat facade_generate prompt use_history (merged_params kwargs s) s
  = (Raise e, s1) ->
  exists r s',
    generate prompt use_history true kwargs s = (Ok r, s')
    /\ LLMResponse.content r = ""
    /\ LLMResponse.error r = Some (str_exn e)
    /\ (str_exn e <> "" -> nonempty_error r)
    /\ history (self s') = history (self s).
Proof.
  intros Hask.
  destruct (ask_frame _ _ _ _ _ _ _ _ _ _ _ _ _ _ Hask) as (Hhist & _).
  eexists _, _. split; [by apply generate_on_raise |].
  split; [reflexivity |]. split; [reflexivity |]. split.
  - intros Hmsg. by exists (str_exn e).
  - exact Hhist.
Qed.
(** *** [chat] *)

Lemma first_user_content_skips (skipped : list message) (m : message)
    (rest : list message) (X : string) :
  Forall (fun m' => m' !! "role" <> Some "user") skipped ->
  m !! "role" = Some "user" ->
  m !! "content" = Some X ->
  first_user_content (skipped ++ m :: rest) = Ok X.
Proof.
  intros Hskip Hrole Hcontent.
  induction Hskip as [| m' skipped Hm' _ IH]; simpl.
  - rewrite bool_decide_eq_true_2 by exact Hrole. by rewrite Hcontent.
  - rewrite bool_decide_eq_false_2 by exact Hm'. exact IH.
Qed.

(** The content of the most recent user message is what the scan from the
    end finds. *)
Lemma first_user_content_latest (before after : list message) (m : message)
    (X : string) :
  m !! "role" = Some "user" ->
  m !! "content" = Some X ->
  Forall (fun m' => m' !! "role" <> Some "user") after ->
  first_user_content (reverse (before ++ m :: after)) = Ok X.
Proof.
  intros Hrole Hcontent Hafter.
  rewrite reverse_app, reverse_cons, <- app_assoc. simpl.
  apply first_user_content_skips; [| exact Hrole | exact Hcontent].
  by apply Forall_reverse.
Qed.

Lemma chat_on_success messages kwargs s response s1 (X : string) :
  facade_chat messages (merged_params kwargs s) s = (Ok response, s1) ->
  LLMResponse.error response = None ->
  messages <> [] ->
  first_user_content (reverse messages) = Ok X ->
  X <> "" ->
  chat messages true kwargs s
  = (Ok response,
     set_history
       (LLMInteractionHistory.add_interaction X response (history (self s1)))
       s1).
Proof.
  intros Hcall Herr Hne Hscan HX.
  unfold chat, try_except, bind, get_state at 1.
  rewrite Hcall, Herr. simpl.
  destruct messages as [| m0 messages0]; [done |]. simpl.
  unfold lift_result. rewrite Hscan.
  destruct (String.eqb_spec X "") as [-> | _]; [done |].
  reflexivity.
Qed.

(** C6 (amended). When the most recent user-role message of the list has a
    non-empty content [X], a successful [chat(messages,
    save_to_history=True)] returns the facade's response and adds to the
    history exactly the interaction that pairs the prompt [X] with that
    response, whatever messages of other roles stand before or after. *)
Theorem chat_records_latest_user_message (before after : list message)
    (m : message) (X : string) kwargs s response s1 :
  m !! "role" = Some "user" ->
  m !! "content" = Some X ->
  X <> "" ->
  Forall (fun m' => m' !! "role" <> Some "user") after ->
  facade_chat (before ++ m :: after) (merged_params kwargs s) s
  = (Ok response, s1) ->
  LLMResponse.error response = None ->
  exists s',
    chat (before ++ m :: after) true kwargs s = (Ok response, s')
    /\ history (self s')
       = LLMInteractionHistory.add_interaction X response (history (self s))
    /\ LLMInteractionHistory.prompt
         (LLMInteractionHistory.entry_of X response) = X
    /\ LLMInteractionHistory.response
         (LLMInteractionHistory.entry_of X response)
       = LLMResponse.content response.
Proof.
  intros Hrole Hcontent HX Hafter Hcall Herr.
  destruct (invoke_frame _ _ _ _ _ _ _ _ _ Hcall) as (Hhist & _).
  eexists. split.
  - apply chat_on_success with (X := X); try done.
    + by destruct before.
    + by apply first_user_content_latest.
  - simpl. by rewrite Hhist.
Qed.

(** Whatever [chat] returns, the facade received exactly one more call: its
    chat method, on the message list that [chat] was given. *)
Lemma chat_reaches_facade messages save_to_history kwargs s r s' :
  rebinds "chat" "messages" (merged_params kwargs s) = None ->
  chat messages save_to_history kwargs s = (r, s') ->
  facade_calls (env s')
  = facade_calls (env s) ++ [CallChat messages (merged_params kwargs s)].
Proof.
  intros Hbind.
  unfold chat, try_except, bind, get_state at 1.
  unfold facade_chat, invoke. rewrite Hbind.
  destruct (LLMFacade.chat _ messages _ _) as [[response | e] a]; simpl.
  - unfold when.
    destruct (save_to_history && is_None (LLMResponse.error response)
              && nonempty_list messages); simpl.
    + unfold lift_result.
      destruct (first_user_content (reverse messages)) as [u | e]; simpl.
      * destruct (negb (u =? "")%string); simpl; by intros [= <- <-].
      * by intros [= <- <-].
    + by intros [= <- <-].
  - by intros [= <- <-].
Qed.

(** C10. [get_history(0)] and [get_as_messages(0)] return what they return
    with the argument omitted, every stored interaction, and not an empty
    list; so [multi_shot_generate(prompt, n_shots=0)] is the chat call on
    the whole rendered history followed by the prompt, and, unless the
    client's default parameters collide with the [messages] argument, that
    message list is what the facade receives. *)
Theorem zero_shots_selects_whole_history (prompt : string) s :
  LLMInteractionHistory.get_history (Some 0%Z) (history (self s))
  = LLMInteractionHistory._history (history (self s))
  /\ LLMInteractionHistory.get_as_messages (Some 0%Z) (history (self s))
     = LLMInteractionHistory.get_as_messages None (history (self s))
  /\ multi_shot_generate prompt 0 ∅ s
     = chat (LLMInteractionHistory.get_as_messages None (history (self s))
               ++ [user_message prompt]) true ∅ s
  /\ (rebinds "chat" "messages" (_default_params (self s)) = None ->
      facade_calls (env (snd (multi_shot_generate prompt 0 ∅ s)))
      = facade_calls (env s)
          ++ [CallChat
                (LLMInteractionHistory.get_as_messages None (history (self s))
                   ++ [user_message prompt])
                (_default_params (self s))]).
Proof.
  assert (Hcall : multi_shot_generate prompt 0 ∅ s
            = chat (LLMInteractionHistory.get_as_messages None
                      (history (self s)) ++ [user_message prompt]) true ∅ s).
  { unfold multi_shot_generate, bind, get_state.
    rewrite get_as_messages_zero.
    unfold rebinds. rewrite !lookup_empty. by rewrite delete_empty. }
  split; [apply get_history_zero |].
  split; [apply get_as_messages_zero |].
  split; [exact Hcall |].
  intros Hbind. rewrite Hcall.
  assert (Hparams : merged_params ∅ s = _default_params (self s))
    by (unfold merged_params; apply (left_id_L ∅ (∪))).
  rewrite <- Hparams.
  apply chat_reaches_facade with (save_to_history := true)
    (r := fst (chat (LLMInteractionHistory.get_as_messages None
                       (history (self s)) ++ [user_message prompt])
                 true ∅ s)).
  - by rewrite Hparams.
  - by destruct (chat _ true ∅ s).
Qed.

(** *** [generate_stream] *)

(** Pulling from the generator suspended inside its loop: the caller gets
    the remaining fragments and the closing one, within [length chunks + 2]
    pulls. *)
Lemma consume_in_loop (chunks : list string) (failure : option exn)
    (prompt : string) (save_to_history : bool) (full_response : list string)
    s (fuel : nat) :
  length chunks + 1 < fuel ->
  consume fuel
    (AtYieldChunk prompt save_to_history full_response
       (LLMFacade.mk_stream chunks failure)) s
  = Some (Ok (chunks ++ closing failure),
          closed prompt save_to_history (full_response ++ chunks) failure s).
Proof.
  revert full_response fuel.
  induction chunks as [| chunk chunks IH]; intros full_response fuel Hfuel.
  - destruct fuel as [| fuel]; [simpl in Hfuel; lia |].
    rewrite app_nil_r. simpl.
    destruct failure as [e |]; simpl.
    + destruct fuel as [| fuel]; [simpl in Hfuel; lia |]. reflexivity.
    + unfold recorded. by destruct save_to_history.
  - destruct fuel as [| fuel]; [simpl in Hfuel; lia |].
    simpl in Hfuel.
    change (consume (S fuel)
              (AtYieldChunk prompt save_to_history full_response
                 (LLMFacade.mk_stream (chunk :: chunks) failure)) s)
      with (match consume fuel
                    (AtYieldChunk prompt save_to_history
                       (full_response ++ [chunk])
                       (LLMFacade.mk_stream chunks failure)) s with
            | Some (Ok received, s'') => Some (Ok (chunk :: received), s'')
            | other => other
            end).
    rewrite IH by lia. by rewrite <- app_assoc.
Qed.

Lemma resume_loop_returns (prompt : string) (save_to_history : bool)
    (full_response : list string) (stream : LLMFacade.stream) s :
  exists v s', resume_loop prompt save_to_history full_response stream s
               = (Ok v, s').
Proof.
  unfold resume_loop.
  destruct (LLMFacade.chunks stream); [| by eexists _, _].
  destruct (LLMFacade.failure stream); [by eexists _, _ |].
  destruct save_to_history; by eexists _, _.
Qed.

(** The first pull, when the facade hands over an iterator: the generator
    goes on as if suspended at the head of its loop. *)
Lemma next_created_opened prompt use_history save_to_history kwargs s
    (stream : LLMFacade.stream) s1 :
  ask facade_chat_stream facade_generate_stream prompt use_history
      (merged_params kwargs s) s = (Ok stream, s1) ->
  next (generate_stream prompt use_history save_to_history kwargs) s
  = next (AtYieldChunk prompt save_to_history [] stream) s1.
Proof.
  intros Hask. simpl.
  unfold bind at 1, get_state, try_except, bind. rewrite Hask.
  by destruct (resume_loop_returns prompt save_to_history [] stream s1)
    as (v & s' & ->).
Qed.

(** The first pull, when the facade call itself raises. *)
Lemma next_created_failed prompt use_history save_to_history kwargs s e s1 :
  ask facade_chat_stream facade_generate_stream prompt use_history
      (merged_params kwargs s) s = (Raise e, s1) ->
  next (generate_stream prompt use_history save_to_history kwargs) s
  = (Ok (Some ("Error: " +:+ str_exn e), AtYieldError), reported e s1).
Proof.
  intros Hask. simpl.
  unfold bind at 1, get_state, try_except, bind. by rewrite Hask.
Qed.

Lemma consume_next_eq (fuel : nat) (g g' : generator) s s' :
  next g s = next g' s' -> consume fuel g s = consume fuel g' s'.
Proof. intros Heq. destruct fuel; [reflexivity |]. simpl. by rewrite Heq. Qed.

(** A facade call that raises before any fragment: the caller receives the
    error marker alone and nothing is recorded. *)
Lemma stream_call_failure prompt use_history save_to_history kwargs s e s1
    (fuel : nat) :
  ask facade_chat_stream facade_generate_stream prompt use_history
      (merged_params kwargs s) s = (Raise e, s1) ->
  1 < fuel ->
  consume fuel (generate_stream prompt use_history save_to_history kwargs) s
  = Some (Ok ["Error: " +:+ str_exn e], reported e s1).
Proof.
  intros Hask Hfuel.
  destruct fuel as [| [| fuel]]; [lia | lia |].
  change (consume (S (S fuel))
            (generate_stream prompt use_history save_to_history kwargs) s)
    with (match next (generate_stream prompt use_history save_to_history
                        kwargs) s with
          | (Ok (Some chunk, g'), s') =>
              match consume (S fuel) g' s' with
              | Some (Ok received, s'') => Some (Ok (chunk :: received), s'')
              | other => other
              end
          | (Ok (None, _), s') => Some (Ok [], s')
          | (Raise e, s') => Some (Raise e, s')
          end).
  by rewrite (next_created_failed _ _ _ _ _ _ _ Hask).
Qed.

(** C4 (amended). A caller that pulls from
    [generate_stream(prompt, save_to_history=True)] until it is exhausted
    receives the fragments of the facade's iterator in order. If that
    iterator ends without raising, exactly the interaction whose response
    content is the concatenation of the received fragments is added to the
    history, whatever the fragments say. If the iterator (or the facade call
    that should return it) raises, the caller receives one more fragment,
    the error marker, and the history is unchanged. *)
Theorem stream_exhaustion_records prompt use_history kwargs s (fuel : nat) :
  let stream :=
    opened (fst (ask facade_chat_stream facade_generate_stream prompt
                   use_history (merged_params kwargs s) s)) in
  length (LLMFacade.chunks stream) + 1 < fuel ->
  exists received s',
    consume fuel (generate_stream prompt use_history true kwargs) s
    = Some (Ok received, s')
    /\ received
       = LLMFacade.chunks stream ++ closing (LLMFacade.failure stream)
    /\ match LLMFacade.failure stream with
       | None =>
           history (self s')
           = LLMInteractionHistory.add_interaction prompt
               (LLMResponse.init (now (env s)) (py_join received)
                  (LLMFacade.model_name (facade (self s)))
                  (LLMFacade.provider_name (facade (self s)))
                  None None None None)
               (history (self s))
       | Some e => history (self s') = history (self s)
       end.
Proof.
  destruct (ask facade_chat_stream facade_generate_stream prompt use_history
              (merged_params kwargs s) s) as [outcome s1] eqn:Hask.
  destruct (ask_frame _ _ _ _ _ _ _ _ _ _ _ _ _ _ Hask)
    as (Hhist & _ & _ & Hnow & Hmodel & Hprov).
  destruct outcome as [[chunks failure] | e]; simpl; intros Hfuel.
  - rewrite (consume_next_eq fuel _ _ _ _
               (next_created_opened _ _ true _ _ _ _ Hask)).
    rewrite consume_in_loop by exact Hfuel.
    eexists _, _. split; [reflexivity |]. split; [reflexivity |].
    destruct failure as [e |]; simpl.
    + exact Hhist.
    + rewrite app_nil_r. by rewrite Hhist, Hnow, Hmodel, Hprov.
  - rewrite (stream_call_failure _ _ true _ _ _ _ fuel Hask) by lia.
    eexists _, _. split; [reflexivity |]. split; [reflexivity |].
    exact Hhist.
Qed.
End ClientFacts.

(** ** Provider registry and cache *)

Section ProviderFactoryFacts.
Context {FS : Type}.
Import LLMProviderFactory.

(** C7. When [get_provider(name, use_cache=True)] has returned a provider,
    the next [get_provider] for that name with [use_cache=True] returns the
    same object (same identity, same body) and changes nothing, whatever key
    and configuration the second call passes. *)
Theorem get_provider_cached (provider_name : string)
    (api_key1 api_key2 : option string) (config1 config2 : option pyval)
    (s s1 : state FS) (p : LLMProvider.t FS) :
  get_provider provider_name api_key1 config1 true s = (Ok p, s1) ->
  get_provider provider_name api_key2 config2 true s1 = (Ok p, s1)
  /\ _provider_instances (self s1) !! lower provider_name = Some p.
Proof.
  unfold get_provider, bind, get_state. simpl.
  destruct (_provider_instances (self s) !! lower provider_name)
    as [cached |] eqn:Hcache.
  - intros [= <- <-]. by rewrite Hcache.
  - destruct (dict_get (lower provider_name) (_provider_registry (self s)))
      as [provider_class |]; [| discriminate].
    unfold instantiate.
    destruct (provider_class provider_name _ config1) as [b | e];
      [| discriminate].
    simpl. intros [= <- <-]. simpl.
    by rewrite lookup_insert_eq.
Qed.

(** The first request for a registered name whose class builds an object:
    the object takes the next identity and goes into the cache. *)
Lemma get_provider_registered (provider_name : string)
    (api_key : option string) (config : option pyval) (s : state FS)
    (provider_class : LLMProvider.class FS) (b : LLMProvider.body FS) :
  _provider_instances (self s) !! lower provider_name = None ->
  dict_get (lower provider_name) (_provider_registry (self s))
  = Some provider_class ->
  provider_class provider_name
    (match api_key with
     | Some k => Some k
     | None => environ (env s) !! (upper provider_name +:+ "_API_KEY")
     end) config = Ok b ->
  get_provider provider_name api_key config true s
  = (Ok (LLMProvider.mk (next_id (env s)) b),
     mk_state
       (mk (_provider_registry (self s))
           (<[lower provider_name := LLMProvider.mk (next_id (env s)) b]>
              (_provider_instances (self s))))
       (allocate (env s))).
Proof.
  intros Hcache Hclass Hbuilt.
  unfold get_provider, bind, get_state. simpl.
  rewrite Hcache, Hclass. unfold instantiate. by rewrite Hbuilt.
Qed.

(** Without the cache every call builds a new object. *)
Lemma get_provider_uncached_fresh (provider_name : string)
    (api_key : option string) (config : option pyval)
    (s s1 : state FS) (p : LLMProvider.t FS) :
  get_provider provider_name api_key config false s = (Ok p, s1) ->
  LLMProvider.ident p = next_id (env s)
  /\ next_id (env s1) = S (next_id (env s))
  /\ _provider_instances (self s1) = _provider_instances (self s).
Proof.
  unfold get_provider, bind, get_state. simpl.
  destruct (dict_get (lower provider_name) (_provider_registry (self s)))
    as [provider_class |]; [| discriminate].
  unfold instantiate.
  destruct (provider_class provider_name _ config) as [b | e];
    [| discriminate].
  simpl. by intros [= <- <-].
Qed.
End ProviderFactoryFacts.

(** ** Client factory *)

Section ClientFactoryFacts.
Context {FS : Type}.
Import LLMClientFactory.

Implicit Types (s : state FS) (kwargs : gmap string pyval).

Lemma create_client_step (fuel : nat) (provider_name model_name : option string)
    (api_key : option string) (history_size : Z) kwargs s :
  create_client (S fuel) provider_name model_name api_key history_size kwargs s
  = match resolved provider_name (_default_provider (self s)) with
    | None =>
        Some (Raise (ValueError
                       "No provider specified and no default configured"), s)
    | Some p =>
        match resolved model_name (_default_model (self s)) with
        | None =>
            Some (Raise (ValueError
                           "No model specified and no default configured"), s)
        | Some m =>
            match build_client p m api_key history_size kwargs s with
            | (Ok client, s1) => Some (Ok client, s1)
            | (Raise e, s1) =>
                match fallback_applies (_config (self s1)) p with
                | Raise e' => Some (Raise e', logged e s1)
                | Ok true =>
                    create_client fuel (Some "mock") (Some "mock-model") None
                      history_size ∅ (warned (logged e s1))
                | Ok false => Some (Raise e, logged e s1)
                end
            end
        end
    end.
Proof. reflexivity. Qed.

(** The closing step of the frame lemmas below: the warnings counted in two
    logs agree once the records appended to one of them are filtered. *)
Ltac count_warnings :=
  unfold fallback_warnings, logged, warned; simpl;
  rewrite ?List.filter_app, ?length_app; simpl;
  try done; try lia.

Lemma fallback_warnings_logged (e : exn) s :
  fallback_warnings (env (logged e s)) = fallback_warnings (env s).
Proof. count_warnings. Qed.

Lemma fallback_warnings_warned s :
  fallback_warnings (env (warned s)) = S (fallback_warnings (env s)).
Proof. count_warnings. Qed.

(** The provider factory writes to the log only when a class is
    registered. *)
Lemma get_provider_logs (n : string) (api_key : option string)
    (config : option pyval) (use_cache : bool)
    (ps : LLMProviderFactory.state FS) (r : result (LLMProvider.t FS))
    (ps' : LLMProviderFactory.state FS) :
  LLMProviderFactory.get_provider n api_key config use_cache ps = (r, ps') ->
  logs (LLMProviderFactory.env ps') = logs (LLMProviderFactory.env ps).
Proof.
  unfold LLMProviderFactory.get_provider, LLMProviderFactory.instantiate.
  unfold when, raise, ret, modify, bind, get_state.
  destruct (if use_cache then _ else None) as [cached |];
    [by intros [= <- <-] |].
  destruct (dict_get _ _) as [provider_class |]; [| by intros [= <- <-]].
  destruct (provider_class n _ config) as [b | e]; [| by intros [= <- <-]].
  destruct use_cache; by intros [= <- <-].
Qed.

(** Building a client leaves the factory's own attributes alone and logs
    no warning. *)
Lemma build_client_frame (p m : string) (api_key : option string)
    (history_size : Z) kwargs s (r : result (LLMClient.t FS)) s1 :
  build_client p m api_key history_size kwargs s = (r, s1) ->
  self s1 = self s
  /\ fallback_warnings (env s1) = fallback_warnings (env s).
Proof.
  unfold build_client, bind at 1, on_provider_factory.
  destruct (LLMProviderFactory.get_provider p api_key _ true _)
    as [[provider | e] ps] eqn:Hget;
    apply get_provider_logs in Hget; simpl in Hget;
    [| intros [= <- <-]; split; [done |]; unfold fallback_warnings; simpl; rewrite Hget; count_warnings].
  unfold when, raise, ret, lift_result, logger, modify, bind.
  destruct (LLMProvider.supports_model m provider) as [[|] | e]; simpl.
  - destruct (LLMProvider.create_facade _ m kwargs) as [f | e]; simpl;
      [| intros [= <- <-]; split; [done |]; unfold fallback_warnings; simpl; rewrite Hget; count_warnings].
    destruct (LLMClient.init f history_size) as [c | e]; simpl;
      intros [= <- <-]; (split; [done |]); unfold fallback_warnings; simpl; rewrite Hget; count_warnings.
  - destruct (LLMProvider.get_available_models _) as [available | e]; simpl;
      intros [= <- <-]; (split; [done |]); unfold fallback_warnings; simpl; rewrite Hget; count_warnings.
  - intros [= <- <-]. split; [done |]. unfold fallback_warnings. simpl. rewrite Hget. count_warnings.
Qed.

(** For the name ['mock'] the condition of the fallback never holds. *)
Lemma fallback_applies_mock (config : option pyval) :
  fallback_applies config "mock" <> Ok true.
Proof.
  unfold fallback_applies. destruct config as [c |]; [| discriminate].
  destruct (truthy c); [| discriminate].
  destruct (py_get c "fallback_to_mock" (PyBool false)) as [flag | e];
    [| discriminate].
  simpl. rewrite andb_false_r. discriminate.
Qed.

(** Where the condition holds for some name, it is false for ['mock']. *)
Lemma fallback_applies_then_mock (config : option pyval) (p : string) :
  fallback_applies config p = Ok true ->
  fallback_applies config "mock" = Ok false.
Proof.
  unfold fallback_applies. destruct config as [c |]; [| discriminate].
  destruct (truthy c); [| discriminate].
  destruct (py_get c "fallback_to_mock" (PyBool false)) as [flag | e];
    [| discriminate].
  intros _. simpl. by rewrite andb_false_r.
Qed.

(** A call for the provider ['mock'] never calls [create_client] again:
    one level of depth is enough for it, it returns or raises, and it logs
    no fallback warning. *)
Lemma create_client_mock_single (fuel : nat) (model_name : option string)
    (api_key : option string) (history_size : Z) kwargs s :
  create_client (S fuel) (Some "mock") model_name api_key history_size kwargs s
  = create_client 1 (Some "mock") model_name api_key history_size kwargs s
  /\ exists r s',
       create_client 1 (Some "mock") model_name api_key history_size kwargs s
       = Some (r, s')
       /\ fallback_warnings (env s') = fallback_warnings (env s).
Proof.
  rewrite !create_client_step. simpl.
  destruct (resolved model_name _) as [m |]; [| by eauto].
  destruct (build_client "mock" m api_key history_size kwargs s)
    as [[client | e] s1] eqn:Hbuild;
    destruct (build_client_frame _ _ _ _ _ _ _ _ Hbuild) as [_ Hwarn].
  - by eauto.
  - pose proof (fallback_applies_mock (_config (self s1))) as Hmock.
    destruct (fallback_applies (_config (self s1)) "mock") as [[|] | e'];
      [done | |]; (split; [reflexivity |]); eexists _, _;
      (split; [reflexivity |]); by rewrite fallback_warnings_logged.
Qed.

(** C8. With no explicit provider and no configured default provider,
    [create_client] raises the "no provider" error at once. The state it
    leaves is the state it found, so no provider object was allocated and
    the cache is as it was; and the outcome is the same on every registry,
    cache and environment, none of which is looked at. *)
Theorem create_client_no_provider (fuel : nat) (model_name : option string)
    (api_key : option string) (history_size : Z) kwargs s :
  _default_provider (self s) = None ->
  create_client (S fuel) None model_name api_key history_size kwargs s
  = Some (Raise (ValueError "No provider specified and no default configured"),
          s)
  /\ forall (providers : LLMProviderFactory.t FS) (w : world),
       create_client (S fuel) None model_name api_key history_size kwargs
         (mk_state (self s) providers w)
       = Some (Raise (ValueError
                        "No provider specified and no default configured"),
               mk_state (self s) providers w).
Proof.
  intros Hdefault. split.
  - rewrite create_client_step. simpl. by rewrite Hdefault.
  - intros providers w. rewrite create_client_step. simpl. by rewrite Hdefault.
Qed.

(** C3 (amended). A [create_client] call that cannot resolve a provider or
    a model name (steps 1 and 2) raises at once, with no retry, whatever the
    configuration says. A call whose attempt to build the client (steps 3 to
    5) fails with [e] is retried against ['mock'] and ['mock-model'], with
    the same history size and no key or overrides, exactly when the
    condition of the fallback holds: a loaded configuration with a true
    [fallback_to_mock], and a resolved provider name other than ['mock'];
    when the condition does not hold, [e] propagates. *)
Theorem create_client_fallback_policy (fuel : nat)
    (provider_name model_name : option string) (api_key : option string)
    (history_size : Z) kwargs s :
  match resolved provider_name (_default_provider (self s)),
        resolved model_name (_default_model (self s)) with
  | None, _ =>
      create_client (S (S fuel)) provider_name model_name api_key history_size
        kwargs s
      = Some (Raise (ValueError
                       "No provider specified and no default configured"), s)
  | Some _, None =>
      create_client (S (S fuel)) provider_name model_name api_key history_size
        kwargs s
      = Some (Raise (ValueError
                       "No model specified and no default configured"), s)
  | Some p, Some m =>
      forall e s1 (applies : bool),
        build_client p m api_key history_size kwargs s = (Raise e, s1) ->
        fallback_applies (_config (self s)) p = Ok applies ->
        create_client (S (S fuel)) provider_name model_name api_key
          history_size kwargs s
        = if applies
          then create_client 1 (Some "mock") (Some "mock-model") None
                 history_size ∅ (warned (logged e s1))
          else Some (Raise e, logged e s1)
  end.
Proof.
  rewrite create_client_step.
  destruct (resolved provider_name _) as [p |]; [| reflexivity].
  destruct (resolved model_name _) as [m |]; [| reflexivity].
  intros e s1 applies Hbuild Happlies.
  rewrite Hbuild.
  destruct (build_client_frame _ _ _ _ _ _ _ _ Hbuild) as [-> _].
  rewrite Happlies. destruct applies; [| reflexivity].
  apply create_client_mock_single.
Qed.

(** C9. [create_client] calls itself at most once. Two levels of depth are
    enough for every call, which then returns or raises; a call logs at most
    one fallback warning; and when the first attempt fails and the fallback
    applies, the outcome of the call is the outcome of one attempt to build
    a ['mock'] client: its client, or its own failure, with nothing tried
    after it. *)
Theorem create_client_falls_back_once (fuel : nat)
    (provider_name model_name : option string) (api_key : option string)
    (history_size : Z) kwargs s :
  create_client (S (S fuel)) provider_name model_name api_key history_size
    kwargs s
  = create_client 2 provider_name model_name api_key history_size kwargs s
  /\ (exists r s',
        create_client 2 provider_name model_name api_key history_size kwargs s
        = Some (r, s')
        /\ fallback_warnings (env s') <= S (fallback_warnings (env s)))
  /\ (forall p m e s1,
        resolved provider_name (_default_provider (self s)) = Some p ->
        resolved model_name (_default_model (self s)) = Some m ->
        build_client p m api_key history_size kwargs s = (Raise e, s1) ->
        fallback_applies (_config (self s)) p = Ok true ->
        create_client (S (S fuel)) provider_name model_name api_key
          history_size kwargs s
        = Some
            (match build_client "mock" "mock-model" None history_size ∅
                     (warned (logged e s1)) with
             | (Ok client, s2) => (Ok client, s2)
             | (Raise e2, s2) => (Raise e2, logged e2 s2)
             end)).
Proof.
  split; [| split].
  - rewrite !create_client_step.
    destruct (resolved provider_name _) as [p |]; [| reflexivity].
    destruct (resolved model_name _) as [m |]; [| reflexivity].
    destruct (build_client p m api_key history_size kwargs s)
      as [[client | e] s1]; [reflexivity |].
    destruct (fallback_applies (_config (self s1)) p) as [[|] | e'];
      try reflexivity.
    apply create_client_mock_single.
  - rewrite create_client_step.
    destruct (resolved provider_name _) as [p |]; [| by eauto].
    destruct (resolved model_name _) as [m |]; [| by eauto].
    destruct (build_client p m api_key history_size kwargs s)
      as [[client | e] s1] eqn:Hbuild;
      destruct (build_client_frame _ _ _ _ _ _ _ _ Hbuild) as [_ Hwarn].
    + eexists _, _. split; [reflexivity |]. lia.
    + destruct (fallback_applies (_config (self s1)) p) as [[|] | e'].
      * destruct (create_client_mock_single 0 (Some "mock-model") None
                    history_size ∅ (warned (logged e s1)))
          as (_ & r & s' & Hmock & Hsame).
        eexists _, _. split; [exact Hmock |].
        rewrite Hsame, fallback_warnings_warned, fallback_warnings_logged.
        lia.
      * eexists _, _. split; [reflexivity |].
        rewrite fallback_warnings_logged. lia.
      * eexists _, _. split; [reflexivity |].
        rewrite fallback_warnings_logged. lia.
  - intros p m e s1 Hp Hm Hbuild Happlies.
    rewrite create_client_step, Hp, Hm, Hbuild.
    destruct (build_client_frame _ _ _ _ _ _ _ _ Hbuild) as [Hself _].
    rewrite Hself, Happlies.
    rewrite create_client_step. simpl.
    destruct (build_client "mock" "mock-model" None history_size ∅
                (warned (logged e s1))) as [[client | e2] s2] eqn:Hretry;
      [reflexivity |].
    destruct (build_client_frame _ _ _ _ _ _ _ _ Hretry) as [Hself2 _].
    rewrite Hself2. simpl. rewrite Hself.
    by rewrite (fallback_applies_then_mock _ _ Happlies).
Qed.
End ClientFactoryFacts.

(** * Worked instances *)

Example fallback_enabled_defaults :
  LLMClientFactory._default_provider (LLMClientFactory.self fallback_enabled)
  = Some "mock"
  /\ LLMClientFactory._default_model (LLMClientFactory.self fallback_enabled)
     = Some "mock-model".
Proof. split; reflexivity. Qed.

Example fallback_without_model_defaults :
  LLMClientFactory._default_provider
    (LLMClientFactory.self fallback_without_model) = Some "openai"
  /\ LLMClientFactory._default_model
       (LLMClientFactory.self fallback_without_model) = None
  /\ LLMClientFactory.fallback_applies
       (LLMClientFactory._config
          (LLMClientFactory.self fallback_without_model)) "openai" = Ok true.
Proof. repeat split; reflexivity. Qed.

(** ** [generate] *)

(** A facade that refuses the connection: [generate] returns the error
    response and records nothing. *)
Lemma generate_absorbs_connection_error :
  let e := Exception "ConnectionError" "connection refused" in
  let s := client_on (scripted (Raise e) no_fragments) [] in
  (exists s1,
     LLMClient.ask LLMClient.facade_chat LLMClient.facade_generate "hello"
       false (LLMClient.merged_params ∅ s) s = (Raise e, s1))
  /\ exists r s',
       LLMClient.generate "hello" false true ∅ s = (Ok r, s')
       /\ LLMResponse.content r = ""
       /\ LLMResponse.error r = Some (str_exn e)
       /\ (str_exn e <> "" -> nonempty_error r)
       /\ LLMClient.history (LLMClient.self s')
          = LLMClient.history (LLMClient.self s).
Proof.
  cbv zeta. split.
  - eexists. reflexivity.
  - eapply generate_absorbs_facade_failure. reflexivity.
Defined.

(** C1, counterexample. A facade that raises an exception with no message,
    as [TimeoutError()] is: [generate] returns a response whose error is the
    empty text, which is not a non-empty error. *)
Lemma generate_error_may_be_empty :
  let e := Exception "TimeoutError" "" in
  let s := client_on (scripted (Raise e) no_fragments) [] in
  fst (LLMClient.ask LLMClient.facade_chat LLMClient.facade_generate "hello"
         false (LLMClient.merged_params ∅ s) s) = Raise e
  /\ exists r,
       fst (LLMClient.generate "hello" false true ∅ s) = Ok r
       /\ LLMResponse.content r = ""
       /\ LLMResponse.error r = Some ""
       /\ ~ nonempty_error r.
Proof.
  cbv zeta. split; [reflexivity |].
  eexists. split; [reflexivity |].
  split; [reflexivity |]. split; [reflexivity |].
  intros (msg & Hset & Hmsg). simpl in Hset. congruence.
Qed.

(** ** [generate_stream] *)

(** A facade whose iterator yields two fragments, the second an error
    marker of its own, and stops: both are received and their concatenation
    is recorded. *)
Lemma stream_records_marker_fragment :
  let stream := LLMFacade.mk_stream ["partial "; "Error: upstream"] None in
  let s := client_on (scripted (Ok (answer "")) stream) [] in
  opened (fst (LLMClient.ask LLMClient.facade_chat_stream
                 LLMClient.facade_generate_stream "hello" false
                 (LLMClient.merged_params ∅ s) s)) = stream
  /\ length (LLMFacade.chunks stream) + 1 < 4
  /\ exists received s',
       LLMClient.consume 4 (LLMClient.generate_stream "hello" false true ∅) s
       = Some (Ok received, s')
       /\ received = ["partial "; "Error: upstream"]
       /\ LLMClient.history (LLMClient.self s')
          = LLMInteractionHistory.add_interaction "hello"
              (LLMResponse.init 0 (py_join received) "stub-model" "stub"
                 None None None None)
              (LLMClient.history (LLMClient.self s)).
Proof.
  cbv zeta. split; [reflexivity |].
  split; [simpl; lia |].
  pose proof (stream_exhaustion_records (FS := unit) "hello" false ∅
                (client_on
                   (scripted (Ok (answer ""))
                      (LLMFacade.mk_stream ["partial "; "Error: upstream"]
                         None))
                   []) 4) as Hrecords.
  cbv zeta in Hrecords.
  destruct Hrecords as (received & s' & Hconsume & Hreceived & Hhistory);
    [vm_compute; lia |].
  exists received, s'.
  split; [exact Hconsume |]. split; [exact Hreceived | exact Hhistory].
Defined.

(** C4, counterexample. A facade whose iterator yields two fragments and
    then raises: the caller exhausts the generator, having received three
    fragments, and the history is still empty. *)
Lemma stream_failure_is_not_recorded :
  let stream :=
    LLMFacade.mk_stream ["Hel"; "lo"]
      (Some (Exception "RuntimeError" "connection lost")) in
  let s := client_on (scripted (Ok (answer "")) stream) [] in
  fst <$> LLMClient.consume 4
            (LLMClient.generate_stream "hello" false true ∅) s
  = Some (Ok ["Hel"; "lo"; "Error: connection lost"])
  /\ (fun out => LLMInteractionHistory._history
                   (LLMClient.history (LLMClient.self (snd out))))
       <$> LLMClient.consume 4
             (LLMClient.generate_stream "hello" false true ∅) s
     = Some []
  /\ LLMInteractionHistory._history (LLMClient.history (LLMClient.self s))
     = [].
Proof. cbv zeta. repeat split; reflexivity. Qed.

(** ** [chat] *)

(** A system message, a user message, and an assistant message after it:
    the user message is what the history keeps. *)
Lemma chat_records_question :
  let messages :=
    [role_message "system" "be brief"] ++ user_message "why?"
      :: [assistant_message "because"] in
  let s := client_on (scripted (Ok (answer "so")) no_fragments) [] in
  user_message "why?" !! "role" = Some "user"
  /\ user_message "why?" !! "content" = Some "why?"
  /\ "why?" <> ""
  /\ Forall (fun m' : message => m' !! "role" <> Some "user")
       [assistant_message "because"]
  /\ (exists s1,
        LLMClient.facade_chat messages (LLMClient.merged_params ∅ s) s
        = (Ok (answer "so"), s1))
  /\ LLMResponse.error (answer "so") = None
  /\ exists s',
       LLMClient.chat messages true ∅ s = (Ok (answer "so"), s')
       /\ LLMClient.history (LLMClient.self s')
          = LLMInteractionHistory.add_interaction "why?" (answer "so")
              (LLMClient.history (LLMClient.self s))
       /\ LLMInteractionHistory.prompt
            (LLMInteractionHistory.entry_of "why?" (answer "so")) = "why?"
       /\ LLMInteractionHistory.response
            (LLMInteractionHistory.entry_of "why?" (answer "so"))
          = LLMResponse.content (answer "so").
Proof.
  cbv zeta.
  assert (Hafter : Forall (fun m' : message => m' !! "role" <> Some "user")
                     [assistant_message "because"]).
  { constructor; [| constructor]. vm_compute. discriminate. }
  split; [reflexivity |]. split; [reflexivity |].
  split; [discriminate |]. split; [exact Hafter |].
  split; [eexists; reflexivity |]. split; [reflexivity |].
  eapply chat_records_latest_user_message;
    [reflexivity | reflexivity | discriminate | exact Hafter
    | reflexivity | reflexivity].
Defined.

(** C6, counterexample. The most recent user message has the empty content:
    the chat succeeds and nothing is added to the history. *)
Lemma chat_skips_empty_user_message :
  let messages := [role_message "system" "be brief"; user_message ""] in
  let s := client_on (scripted (Ok (answer "so")) no_fragments) [] in
  LLMClient.first_user_content (reverse messages) = Ok ""
  /\ fst (LLMClient.chat messages true ∅ s) = Ok (answer "so")
  /\ LLMResponse.error (answer "so") = None
  /\ LLMClient.history (LLMClient.self (snd (LLMClient.chat messages true ∅ s)))
     = LLMClient.history (LLMClient.self s)
  /\ LLMInteractionHistory.size
       (LLMClient.history
          (LLMClient.self (snd (LLMClient.chat messages true ∅ s)))) = 0.
Proof. cbv zeta. repeat split; reflexivity. Qed.

(** ** [multi_shot_generate] *)

(** A client with two stored interactions: zero shots send all four
    rendered messages and the prompt to the facade. *)
Lemma zero_shots_on_two_interactions :
  let s :=
    client_on (scripted (Ok (answer "so")) no_fragments)
      [stored_entry "q1" "a1"; stored_entry "q2" "a2"] in
  rebinds "chat" "messages" (LLMClient._default_params (LLMClient.self s))
  = None
  /\ LLMInteractionHistory.get_history (Some 0%Z)
       (LLMClient.history (LLMClient.self s))
     = [stored_entry "q1" "a1"; stored_entry "q2" "a2"]
  /\ facade_calls
       (LLMClient.env (snd (LLMClient.multi_shot_generate "q3" 0 ∅ s)))
     = [CallChat
          [user_message "q1"; assistant_message "a1"; user_message "q2";
           assistant_message "a2"; user_message "q3"] ∅].
Proof.
  cbv zeta. split; [reflexivity |].
  pose proof (zero_shots_selects_whole_history (FS := unit) "q3"
                (client_on (scripted (Ok (answer "so")) no_fragments)
                   [stored_entry "q1" "a1"; stored_entry "q2" "a2"]))
    as (Hget & _ & _ & Hcalls).
  split; [exact Hget | exact (Hcalls eq_refl)].
Defined.

(** ** Interaction history *)

(** Three additions to a fresh history of capacity two. *)
Lemma history_of_two_after_three :
  let xs := [("a", answer "1"); ("b", answer "2"); ("c", answer "3")] in
  (0 <= 2)%Z
  /\ Z.to_nat 2 < length xs
  /\ (exists h0, LLMInteractionHistory.init 2 = Ok h0
        /\ LLMInteractionHistory.size (add_all xs h0) = Z.to_nat 2
        /\ LLMInteractionHistory.get_history None (add_all xs h0)
           = last_n (Z.to_nat 2) (entries xs))
  /\ last_n (Z.to_nat 2) (entries xs)
     = [stored_entry "b" "2"; stored_entry "c" "3"].
Proof.
  cbv zeta.
  assert (H0 : (0 <= 2)%Z) by lia.
  assert (Hlen : Z.to_nat 2
                 < length [("a", answer "1"); ("b", answer "2");
                           ("c", answer "3")]) by (simpl; lia).
  split; [exact H0 |]. split; [exact Hlen |].
  split; [| reflexivity].
  exact (proj1 (history_keeps_last_N 2 _ H0 Hlen)).
Defined.

(** ** Provider registry and cache *)

(** Two requests for the registered provider, the second with another key
    and a configuration. *)
Lemma mock_provider_is_cached :
  exists p s1,
    LLMProviderFactory.get_provider "Mock" (Some "first-key") None true
      registered = (Ok p, s1)
    /\ LLMProviderFactory.get_provider "Mock" (Some "second-key")
         (Some (PyDict [("region", PyStr "eu")])) true s1 = (Ok p, s1)
    /\ LLMProviderFactory._provider_instances (LLMProviderFactory.self s1)
         !! lower "Mock" = Some p.
Proof.
  eexists _, _. split; [lazy; reflexivity |].
  eapply (get_provider_cached "Mock" (Some "first-key") (Some "second-key")
            None (Some (PyDict [("region", PyStr "eu")])) registered).
  lazy; reflexivity.
Defined.

(** ** Client factory *)

(** A factory that has loaded nothing and was given no defaults. *)
Lemma unconfigured_factory_has_no_provider :
  LLMClientFactory._default_provider (LLMClientFactory.self unconfigured)
  = None
  /\ LLMClientFactory.create_client 1 None None None 50 ∅ unconfigured
     = Some (Raise (ValueError
                      "No provider specified and no default configured"),
             unconfigured).
Proof.
  split; [reflexivity |].
  exact (proj1 (create_client_no_provider 0 None None 50 ∅ unconfigured
                  eq_refl)).
Defined.

(** C3, counterexample. The configuration enables the fallback, the
    requested provider is not ['mock'], and the model name cannot be
    resolved: the call raises at once and leaves the state as it was, though
    a call for ['mock'] would have produced a client. *)
Lemma unresolved_model_is_not_retried :
  LLMClientFactory.fallback_applies
    (LLMClientFactory._config (LLMClientFactory.self fallback_without_model))
    "openai" = Ok true
  /\ LLMClientFactory.create_client 5 (Some "openai") None None 50 ∅
       fallback_without_model
     = Some (Raise (ValueError "No model specified and no default configured"),
             fallback_without_model)
  /\ exists client s',
       LLMClientFactory.create_client 5 (Some "mock") (Some "mock-model") None
         50 ∅ fallback_without_model = Some (Ok client, s').
Proof.
  split; [reflexivity |]. split; [reflexivity |].
  eexists _, _. reflexivity.
Qed.

(** An unregistered provider with the fallback enabled: the call is
    retried against ['mock'] and returns its client. *)
Lemma unregistered_provider_falls_back :
  exists e s1,
    LLMClientFactory.build_client "openai" "gpt" None 50 ∅ fallback_enabled
    = (Raise e, s1)
    /\ LLMClientFactory.fallback_applies
         (LLMClientFactory._config (LLMClientFactory.self fallback_enabled))
         "openai" = Ok true
    /\ LLMClientFactory.create_client 2 (Some "openai") (Some "gpt") None 50 ∅
         fallback_enabled
       = LLMClientFactory.create_client 1 (Some "mock") (Some "mock-model")
           None 50 ∅ (warned (logged e s1))
    /\ exists client s',
         LLMClientFactory.create_client 2 (Some "openai") (Some "gpt") None
           50 ∅ fallback_enabled = Some (Ok client, s').
Proof.
  eexists _, _. split; [reflexivity |]. split; [reflexivity |].
  split.
  - exact (create_client_fallback_policy 0 (Some "openai") (Some "gpt") None
             50 ∅ fallback_enabled _ _ true eq_refl eq_refl).
  - eexists _, _. reflexivity.
Defined.

(** A fallback that fails too: with a negative history size neither the
    requested provider nor ['mock'] yields a client; the failure of the
    ['mock'] attempt is what the call raises, after one warning. *)
Lemma failed_fallback_is_final :
  LLMClientFactory.create_client 9 (Some "openai") (Some "gpt") None (-1) ∅
    fallback_enabled
  = LLMClientFactory.create_client 2 (Some "openai") (Some "gpt") None (-1) ∅
      fallback_enabled
  /\ fst <$> LLMClientFactory.create_client 2 (Some "openai") (Some "gpt")
               None (-1) ∅ fallback_enabled
     = Some (Raise (ValueError "maxlen must be non-negative"))
  /\ (fun out => fallback_warnings (LLMClientFactory.env (snd out)))
       <$> LLMClientFactory.create_client 2 (Some "openai") (Some "gpt")
             None (-1) ∅ fallback_enabled
     = Some 1.
Proof.
  split; [| split; reflexivity].
  exact (proj1 (create_client_falls_back_once 7 (Some "openai") (Some "gpt")
                  None (-1) ∅ fallback_enabled)).
Defined.

(** * The rest of the core *)

(** The functions of the same files that the statements above did not need,
    the vocabulary of their properties, and the properties themselves. *)

(** ** [llm_client_factory.py]: queries *)

Module LLMClientFactoryQueries.
Section WithState.
Context {FS : Type}.
Import LLMClientFactory.

(** [get_config] *)
Definition get_config : M (state FS) (option pyval) :=
  (s <- get_state;; ret (_config (self s)))%py.

(** [list_available_providers] *)
Definition list_available_providers : M (state FS) (list string) :=
  on_provider_factory LLMProviderFactory.get_available_providers.

End WithState.
End LLMClientFactoryQueries.

(** ** [mock_provider.py]: the mock provider *)

Module MockProvider.
Section WithState.
Context {FS : Type}.

(** The constructor of the facade class, [MockFacade(model_name=...,
    provider_name=..., api_key=..., config=model_config)], is a parameter:
    the configuration it is given holds floating-point delays and costs. It
    receives the keyword arguments of [create_facade], from which
    [model_config] is made. The constructor does not fail. *)
Variable MockFacade :
  string -> string -> option string -> gmap string pyval -> LLMFacade.t FS.

(** The keys of [self._available_models], in the order of the literal. *)
Definition _available_models : list string :=
  ["mock-model"; "mock-model-large"; "mock-model-fast"].

Definition get_available_models : list string := _available_models.

(** [create_facade]: [model_name not in self._available_models] raises. *)
Definition create_facade (provider_name : string) (api_key : option string)
    (model_name : string) (kwargs : gmap string pyval)
  : result (LLMFacade.t FS) :=
  if existsb (String.eqb model_name) _available_models
  then Ok (MockFacade model_name provider_name api_key kwargs)
  else Raise (ValueError
                ("Model '" +:+ model_name +:+ "' not available. "
                   +:+ "Available models: "
                   +:+ repr_list get_available_models)).

(** [validate_api_key] *)
Definition validate_api_key : bool := true.

(** [config or {}], as [LLMProvider.__init__] stores it. *)
Definition config_or_empty (config : option pyval) : pyval :=
  match config with
  | Some c => if truthy c then c else PyDict []
  | None => PyDict []
  end.

(** The class: [__init__] stores its arguments and fills the catalog. *)
Definition class : LLMProvider.class FS :=
  fun provider_name api_key config =>
    Ok (LLMProvider.mk_body provider_name api_key
          (Some (config_or_empty config))
          (Ok get_available_models) (create_facade provider_name api_key)).
End WithState.
End MockProvider.

(** ** Vocabulary of the further statements *)

Section FurtherHistoryVocabulary.
Import LLMInteractionHistory.

(** The operations that change a history. *)
Inductive history_op : Type :=
| OpAdd (prompt : string) (r : LLMResponse.t)
| OpClear.

Definition apply_op (h : t) (op : history_op) : t :=
  match op with
  | OpAdd prompt r => add_interaction prompt r h
  | OpClear => clear h
  end.

(** A sequence of operations, run from the first to the last. *)
Definition run_ops (ops : list history_op) (h : t) : t :=
  foldl apply_op h ops.
End FurtherHistoryVocabulary.

Section FurtherClientVocabulary.
Context {FS : Type}.
Import LLMClient.

(** A caller that pulls [n] times from the generator and then leaves it:
    what each pull gave, the generator, and the state. A generator that
    raised is finished. *)
Fixpoint pulls (n : nat) (g : generator) (s : state FS)
  : list (result (option string)) * generator * state FS :=
  match n with
  | 0 => ([], g, s)
  | S n' =>
      match next g s with
      | (Ok (out, g'), s') =>
          let '(outs, g'', s'') := pulls n' g' s' in
          (Ok out :: outs, g'', s'')
      | (Raise e, s') => ([Raise e], Finished, s')
      end
  end.

(** The call that [generate] and [generate_stream] make on the facade. *)
Definition expected_call (streaming : bool) (prompt : string)
    (use_history : bool) (params : gmap string pyval) (s : state FS)
  : facade_call :=
  if use_history && negb (LLMInteractionHistory.is_empty (history (self s)))
  then
    (if streaming then CallChatStream else CallChat)
      (LLMInteractionHistory.get_as_messages None (history (self s))
         ++ [user_message prompt]) params
  else (if streaming then CallGenerateStream else CallGenerate) prompt params.
End FurtherClientVocabulary.

(** ** Interaction history, further *)

Section FurtherHistoryFacts.
Import LLMInteractionHistory.

(** X1. For a positive [n], [get_history(n)] is the last [n] stored
    interactions, oldest first, or all of them when fewer are stored. *)
Theorem get_history_most_recent (n : Z) (h : t) :
  (0 < n)%Z ->
  get_history (Some n) h = last_n (Z.to_nat n) (_history h)
  /\ length (get_history (Some n) h) = Nat.min (Z.to_nat n) (size h).
Proof.
  intros Hpos.
  assert (Heq : get_history (Some n) h = last_n (Z.to_nat n) (_history h)).
  { unfold get_history, py_slice_from, last_n.
    destruct (Z.ltb_spec (- n) 0) as [_ | Hge]; [| lia].
    f_equal. lia. }
  split; [exact Heq |].
  rewrite Heq, length_last_n. reflexivity.
Qed.

(** X2. For a negative [n], [get_history(n)] does not select from the end:
    it drops the [|n|] oldest interactions and returns the rest, which is
    nothing when [|n|] reaches the size. *)
Theorem get_history_negative_drops_oldest (n : Z) (h : t) :
  (n < 0)%Z ->
  get_history (Some n) h = drop (Z.to_nat (- n)) (_history h)
  /\ length (get_history (Some n) h) = size h - Z.to_nat (- n).
Proof.
  intros Hneg.
  assert (Heq : get_history (Some n) h = drop (Z.to_nat (- n)) (_history h)).
  { unfold get_history, py_slice_from.
    destruct (Z.ltb_spec (- n) 0) as [Hlt | _]; [lia |].
    destruct (Z.le_gt_cases (- n) (Z.of_nat (length (_history h))))
      as [Hle | Hgt].
    - f_equal. lia.
    - rewrite !drop_ge by lia. reflexivity. }
  split; [exact Heq |].
  rewrite Heq, length_drop. reflexivity.
Qed.

Lemma run_ops_snoc (ops : list history_op) (op : history_op) (h : t) :
  run_ops (ops ++ [op]) h = apply_op (run_ops ops h) op.
Proof. unfold run_ops. by rewrite foldl_app. Qed.

(** X3. From the history that [__init__] builds, any sequence of additions
    and clearings leaves a history that holds at most [max_history]
    interactions, with [max_history] unchanged. *)
Theorem history_never_exceeds_capacity (N : Z) (h0 : t)
    (ops : list history_op) :
  init N = Ok h0 ->
  size (run_ops ops h0) <= Z.to_nat N
  /\ max_history (run_ops ops h0) = N.
Proof.
  intros Hinit.
  destruct (init_within_capacity N h0 Hinit) as (Hmax & _ & Hcap0).
  assert (Hinv : within_capacity (run_ops ops h0)
                 /\ max_history (run_ops ops h0) = N).
  { induction ops as [| op ops IH] using rev_ind; [by split |].
    rewrite run_ops_snoc. destruct IH as [Hcap HN].
    destruct op as [prompt r |]; simpl.
    - split; [by apply add_interaction_within_capacity | exact HN].
    - split; [apply clear_within_capacity | exact HN]. }
  destruct Hinv as [Hcap HN]. split; [| exact HN].
  unfold within_capacity in Hcap. by rewrite HN in Hcap.
Qed.

(** X4. On a history of positive capacity, an addition puts the new
    interaction last; it keeps every stored interaction while there is room
    and evicts exactly the oldest one when the history is full. *)
Theorem add_interaction_evicts_only_when_full (prompt : string)
    (r : LLMResponse.t) (h : t) :
  (0 < max_history h)%Z ->
  size h <= Z.to_nat (max_history h) ->
  _history (add_interaction prompt r h)
  = (if size h <? Z.to_nat (max_history h)
     then _history h
     else drop 1 (_history h)) ++ [entry_of prompt r].
Proof.
  intros Hpos Hcap. unfold size in *. simpl. unfold deque_append.
  rewrite length_app. simpl.
  destruct (Nat.ltb_spec (length (_history h)) (Z.to_nat (max_history h)))
    as [Hroom | Hfull].
  - destruct (Nat.ltb_spec (Z.to_nat (max_history h))
                (length (_history h) + 1)); [lia | reflexivity].
  - destruct (Nat.ltb_spec (Z.to_nat (max_history h))
                (length (_history h) + 1)) as [_ | Hle]; [| lia].
    apply drop_app_le. lia.
Qed.
End FurtherHistoryFacts.

(** ** Client, further *)

Section FurtherClientFacts.
Context {FS : Type}.
Import LLMClient.

Implicit Types (s : state FS) (kwargs params : gmap string pyval).

(** When the facade call of [generate] returns, [generate] returns the
    same response, recorded or not. *)
Lemma generate_on_return prompt use_history save_to_history kwargs s
    (response : LLMResponse.t) s1 :
  ask facade_chat facade_generate prompt use_history (merged_params kwargs s) s
  = (Ok response, s1) ->
  generate prompt use_history save_to_history kwargs s
  = (Ok response,
     if save_to_history && is_None (LLMResponse.error response)
     then set_history
            (LLMInteractionHistory.add_interaction prompt response
               (history (self s1))) s1
     else s1).
Proof.
  intros Hask.
  unfold generate, try_except, bind, get_state at 1.
  rewrite Hask. simpl.
  by destruct (save_to_history && is_None (LLMResponse.error response)).
Qed.

(** X5. When the facade returns a response, [generate] returns that very
    response, and adds the interaction to the history exactly when
    [save_to_history] is set and the response carries no error: an error
    response returned by the facade is passed on and not recorded. *)
Theorem generate_records_clean_responses prompt use_history save_to_history
    kwargs s (response : LLMResponse.t) s1 :
  ask facade_chat facade_generate prompt use_history (merged_params kwargs s) s
  = (Ok response, s1) ->
  exists s',
    generate prompt use_history save_to_history kwargs s = (Ok response, s')
    /\ history (self s')
       = if save_to_history && is_None (LLMResponse.error response)
         then LLMInteractionHistory.add_interaction prompt response
                (history (self s))
         else history (self s).
Proof.
  intros Hask.
  destruct (ask_frame _ _ _ _ _ _ _ _ _ _ _ _ _ _ Hask) as (Hhist & _).
  eexists. split; [by apply generate_on_return |].
  destruct (save_to_history && is_None (LLMResponse.error response));
    simpl; by rewrite Hhist.
Qed.

(** With [save_to_history=False], [generate] leaves the history as it
    found it, whatever the facade does. *)
Theorem generate_without_saving prompt use_history kwargs s :
  history (self (snd (generate prompt use_history false kwargs s)))
  = history (self s).
Proof.
  destruct (ask facade_chat facade_generate prompt use_history
              (merged_params kwargs s) s) as [[response | e] s1] eqn:Hask;
    destruct (ask_frame _ _ _ _ _ _ _ _ _ _ _ _ _ _ Hask) as (Hhist & _).
  - by rewrite (generate_on_return _ _ false _ _ _ _ Hask).
  - by rewrite (generate_on_raise _ _ false _ _ _ _ Hask).
Qed.

(** The facade call of [generate] and [generate_stream] leaves one entry in
    the trace. *)
Lemma ask_trace {A : Type} (streaming : bool)
    (m1 : LLMFacade.t FS -> list message -> gmap string pyval -> M FS A)
    (m2 : LLMFacade.t FS -> string -> gmap string pyval -> M FS A)
    (c1 c2 : string) prompt use_history params s (r : result A) s' :
  rebinds c1 "messages" params = None ->
  rebinds c2 "prompt" params = None ->
  ask (invoke c1 "messages" m1
         (if streaming then CallChatStream else CallChat))
      (invoke c2 "prompt" m2
         (if streaming then CallGenerateStream else CallGenerate))
      prompt use_history params s = (r, s') ->
  facade_calls (env s')
  = facade_calls (env s)
      ++ [expected_call streaming prompt use_history params s].
Proof.
  intros Hchat Hplain. unfold ask, bind, get_state, expected_call.
  destruct (use_history && _); unfold invoke.
  - rewrite Hchat. destruct (m1 _ _ params _) as [r0 a].
    by intros [= <- <-].
  - rewrite Hplain. destruct (m2 _ prompt params _) as [r0 a].
    by intros [= <- <-].
Qed.

(** X6. Whatever its outcome, [generate] calls the facade exactly once:
    its chat method on the whole rendered history followed by the prompt
    when [use_history] is set and the history is not empty, and its plain
    method on the prompt otherwise, an empty history included. The
    hypotheses keep the parameters from naming a positional argument. *)
Theorem generate_calls_facade_once prompt use_history save_to_history kwargs
    s :
  rebinds "chat" "messages" (merged_params kwargs s) = None ->
  rebinds "generate" "prompt" (merged_params kwargs s) = None ->
  facade_calls
    (env (snd (generate prompt use_history save_to_history kwargs s)))
  = facade_calls (env s)
      ++ [expected_call false prompt use_history (merged_params kwargs s) s].
Proof.
  intros Hchat Hplain.
  destruct (ask facade_chat facade_generate prompt use_history
              (merged_params kwargs s) s) as [[response | e] s1] eqn:Hask;
    pose proof (ask_trace false _ _ _ _ _ _ _ _ _ _ Hchat Hplain Hask)
      as Htrace.
  - rewrite (generate_on_return _ _ save_to_history _ _ _ _ Hask).
    by destruct (save_to_history && _).
  - by rewrite (generate_on_raise _ _ save_to_history _ _ _ _ Hask).
Qed.

(** X7. The parameters that reach the facade give, for every key, the
    value of the call when the call names the key, else the value set last
    by [set_default_params], else the value the defaults held before. *)
Theorem call_parameters_take_precedence (defaults kwargs : gmap string pyval)
    (key : string) s :
  merged_params kwargs (snd (set_default_params defaults s)) !! key
  = match kwargs !! key with
    | Some v => Some v
    | None =>
        match defaults !! key with
        | Some v => Some v
        | None => _default_params (self s) !! key
        end
    end.
Proof.
  unfold merged_params, set_default_params, modify. simpl.
  rewrite !lookup_union.
  destruct (kwargs !! key), (defaults !! key),
    (_default_params (self s) !! key); reflexivity.
Qed.
End FurtherClientFacts.

Section FurtherChatFacts.
Context {FS : Type}.
Import LLMClient.

Implicit Types (s : state FS) (kwargs params : gmap string pyval).

Lemma chat_on_raise messages save_to_history kwargs s e s1 :
  facade_chat messages (merged_params kwargs s) s = (Raise e, s1) ->
  chat messages save_to_history kwargs s
  = (Ok (LLMResponse.init (now (env s)) ""
           (LLMFacade.model_name (facade (self s)))
           (LLMFacade.provider_name (facade (self s)))
           None None None (Some (str_exn e))),
     set_env (log_record ERROR ("Error in chat: " +:+ str_exn e) (env s1)) s1).
Proof.
  intros Hcall.
  destruct (invoke_frame _ _ _ _ _ _ _ _ _ Hcall)
    as (_ & _ & _ & Hnow & Hmodel & Hprov).
  unfold chat, try_except, bind, get_state at 1.
  rewrite Hcall.
  unfold logger_error, own_response, bind, modify, get_state, ret. simpl.
  by rewrite Hnow, Hmodel, Hprov.
Qed.

(** X8. If the facade's chat method raises [e], [chat] does not raise: it
    returns a response with empty content and the error [str(e)], and
    leaves the history alone, with or without [save_to_history]. *)
Theorem chat_absorbs_facade_failure messages save_to_history kwargs s e s1 :
  facade_chat messages (merged_params kwargs s) s = (Raise e, s1) ->
  exists r s',
    chat messages save_to_history kwargs s = (Ok r, s')
    /\ LLMResponse.content r = ""
    /\ LLMResponse.error r = Some (str_exn e)
    /\ history (self s') = history (self s).
Proof.
  intros Hcall.
  destruct (invoke_frame _ _ _ _ _ _ _ _ _ Hcall) as (Hhist & _).
  eexists _, _. split; [by apply chat_on_raise |].
  repeat split. exact Hhist.
Qed.

Lemma first_user_content_keyless (skipped : list message) (m : message)
    (rest : list message) :
  Forall (fun m' => m' !! "role" <> Some "user") skipped ->
  m !! "role" = Some "user" ->
  m !! "content" = None ->
  first_user_content (skipped ++ m :: rest) = Raise (KeyError "content").
Proof.
  intros Hskip Hrole Hcontent.
  induction Hskip as [| m' skipped Hm' _ IH]; simpl.
  - rewrite bool_decide_eq_true_2 by exact Hrole. by rewrite Hcontent.
  - rewrite bool_decide_eq_false_2 by exact Hm'. exact IH.
Qed.

Lemma first_user_content_absent (messages : list message) :
  Forall (fun m' => m' !! "role" <> Some "user") messages ->
  first_user_content messages = Ok "".
Proof.
  induction 1 as [| m' messages Hm' _ IH]; simpl; [reflexivity |].
  by rewrite bool_decide_eq_false_2.
Qed.

(** X9. When the most recent user-role message has no [content] key, a
    successful answer of the facade is lost: [chat(save_to_history=True)]
    returns an error response, with the text of the [KeyError], in place of
    the facade's response, and the history is unchanged. *)
Theorem chat_user_message_without_content (before after : list message)
    (m : message) kwargs s (response : LLMResponse.t) s1 :
  m !! "role" = Some "user" ->
  m !! "content" = None ->
  Forall (fun m' => m' !! "role" <> Some "user") after ->
  facade_chat (before ++ m :: after) (merged_params kwargs s) s
  = (Ok response, s1) ->
  LLMResponse.error response = None ->
  exists r s',
    chat (before ++ m :: after) true kwargs s = (Ok r, s')
    /\ LLMResponse.content r = ""
    /\ LLMResponse.error r = Some "'content'"
    /\ history (self s') = history (self s).
Proof.
  intros Hrole Hcontent Hafter Hcall Herr.
  destruct (invoke_frame _ _ _ _ _ _ _ _ _ Hcall) as (Hhist & _).
  assert (Hscan : first_user_content (reverse (before ++ m :: after))
                  = Raise (KeyError "content")).
  { rewrite reverse_app, reverse_cons, <- app_assoc. simpl.
    apply first_user_content_keyless; [by apply Forall_reverse | done..]. }
  unfold chat, try_except, bind, get_state at 1.
  rewrite Hcall, Herr. simpl.
  assert (Hne : nonempty_list (before ++ m :: after) = true)
    by by destruct before.
  rewrite Hne. simpl. unfold lift_result. rewrite Hscan.
  unfold logger_error, own_response, bind, modify, get_state, ret. simpl.
  eexists _, _. split; [reflexivity |]. repeat split. exact Hhist.
Qed.

(** X10. When no message of the list has the role [user], a successful
    [chat] returns the facade's response and records nothing, also with
    [save_to_history=True]. *)
Theorem chat_without_user_message (messages : list message)
    save_to_history kwargs s (response : LLMResponse.t) s1 :
  Forall (fun m' => m' !! "role" <> Some "user") messages ->
  facade_chat messages (merged_params kwargs s) s = (Ok response, s1) ->
  exists s',
    chat messages save_to_history kwargs s = (Ok response, s')
    /\ history (self s') = history (self s).
Proof.
  intros Hnone Hcall.
  destruct (invoke_frame _ _ _ _ _ _ _ _ _ Hcall) as (Hhist & _).
  unfold chat, try_except, bind, get_state at 1.
  rewrite Hcall. simpl. unfold when.
  destruct (save_to_history && is_None (LLMResponse.error response)
            && nonempty_list messages); simpl.
  - unfold lift_result.
    rewrite (first_user_content_absent (reverse messages))
      by by apply Forall_reverse.
    simpl. eexists. split; [reflexivity | exact Hhist].
  - eexists. split; [reflexivity | exact Hhist].
Qed.

(** [chat] with [save_to_history=False] leaves the history alone. *)
Lemma chat_without_saving messages kwargs s :
  history (self (snd (chat messages false kwargs s))) = history (self s).
Proof.
  destruct (facade_chat messages (merged_params kwargs s) s)
    as [[response | e] s1] eqn:Hcall;
    destruct (invoke_frame _ _ _ _ _ _ _ _ _ Hcall) as (Hhist & _).
  - unfold chat, try_except, bind, get_state at 1. by rewrite Hcall.
  - by rewrite (chat_on_raise _ false _ _ _ _ Hcall).
Qed.

(** [multi_shot_generate] with no keyword argument is [chat] on the
    rendered selection followed by the prompt. *)
Lemma multi_shot_generate_plain (prompt : string) (n_shots : Z) s :
  multi_shot_generate prompt n_shots ∅ s
  = chat (LLMInteractionHistory.get_as_messages (Some n_shots)
            (history (self s)) ++ [user_message prompt]) true ∅ s.
Proof.
  unfold multi_shot_generate, bind, get_state.
  unfold rebinds. rewrite !lookup_empty. by rewrite delete_empty.
Qed.

Lemma merged_params_empty s : merged_params ∅ s = _default_params (self s).
Proof. unfold merged_params. apply (left_id_L ∅ (∪)). Qed.

(** X11. For a positive [n_shots], [multi_shot_generate] sends to the
    facade [2 * min(n_shots, size) + 1] messages: the rendering of the
    [n_shots] most recent interactions, then the prompt as a user message.
    With [n_shots=2] and at least two stored interactions that is five
    messages. *)
Theorem multi_shot_message_count (prompt : string) (n_shots : Z) s :
  (0 < n_shots)%Z ->
  rebinds "chat" "messages" (_default_params (self s)) = None ->
  exists messages,
    facade_calls (env (snd (multi_shot_generate prompt n_shots ∅ s)))
    = facade_calls (env s)
        ++ [CallChat messages (_default_params (self s))]
    /\ messages
       = concat (map rendered
                   (last_n (Z.to_nat n_shots)
                      (LLMInteractionHistory._history (history (self s)))))
           ++ [user_message prompt]
    /\ length messages
       = 2 * Nat.min (Z.to_nat n_shots)
               (LLMInteractionHistory.size (history (self s))) + 1.
Proof.
  intros Hpos Hbind.
  assert (Hsel : LLMInteractionHistory.get_history (Some n_shots)
                   (history (self s))
                 = last_n (Z.to_nat n_shots)
                     (LLMInteractionHistory._history (history (self s)))).
  { unfold LLMInteractionHistory.get_history, py_slice_from, last_n.
    destruct (Z.ltb_spec (- n_shots) 0) as [_ | Hge]; [| lia].
    f_equal. lia. }
  eexists. split; [| split; [reflexivity |]].
  - rewrite multi_shot_generate_plain.
    rewrite get_as_messages_rendered, Hsel.
    rewrite <- (merged_params_empty s).
    destruct (chat _ true ∅ s) as [r s'] eqn:Hchat. simpl.
    apply (chat_reaches_facade _ _ _ _ _ _
             ltac:(by rewrite merged_params_empty) Hchat).
  - rewrite length_app. simpl.
    assert (Hlen : forall l : list LLMInteractionHistory.interaction,
               length (concat (map rendered l)) = 2 * length l).
    { induction l as [| i l IH]; [reflexivity |]. simpl. rewrite IH. lia. }
    rewrite Hlen, length_last_n. reflexivity.
Qed.

(** X12. A successful [multi_shot_generate] with a non-empty prompt adds to
    the history the interaction of that prompt with the returned response:
    the rendered context is not recorded again. *)
Theorem multi_shot_records_prompt (prompt : string) (n_shots : Z) s
    (response : LLMResponse.t) s1 :
  prompt <> "" ->
  facade_chat
    (LLMInteractionHistory.get_as_messages (Some n_shots) (history (self s))
       ++ [user_message prompt]) (merged_params ∅ s) s = (Ok response, s1) ->
  LLMResponse.error response = None ->
  exists s',
    multi_shot_generate prompt n_shots ∅ s = (Ok response, s')
    /\ history (self s')
       = LLMInteractionHistory.add_interaction prompt response
           (history (self s)).
Proof.
  intros Hprompt Hcall Herr.
  destruct (invoke_frame _ _ _ _ _ _ _ _ _ Hcall) as (Hhist & _).
  rewrite multi_shot_generate_plain.
  eexists. split.
  - apply chat_on_success with (X := prompt); try done.
    + by destruct (LLMInteractionHistory.get_as_messages _ _).
    + apply first_user_content_latest with (after := []);
        [apply role_message_role | apply role_message_content | constructor].
  - simpl. by rewrite Hhist.
Qed.

(** X13. A false [save_to_history] among the keyword arguments of
    [multi_shot_generate] reaches [chat] as its parameter of that name:
    nothing is recorded. *)
Theorem multi_shot_forwards_save_flag (prompt : string) (n_shots : Z)
    kwargs (v : pyval) s :
  kwargs !! "save_to_history" = Some v ->
  truthy v = false ->
  rebinds "LLMClient.chat" "messages" kwargs = None ->
  history (self (snd (multi_shot_generate prompt n_shots kwargs s)))
  = history (self s).
Proof.
  intros Hflag Hfalse Hbind.
  unfold multi_shot_generate, bind, get_state.
  rewrite Hbind, Hflag, Hfalse. apply chat_without_saving.
Qed.
End FurtherChatFacts.

Section FurtherStreamFacts.
Context {FS : Type}.
Import LLMClient.

Implicit Types (s : state FS) (kwargs params : gmap string pyval).

(** Pulling fragments that the iterator still has changes nothing of the
    client: the generator only moves along the iterator. *)
Lemma pulls_in_loop (n : nat) (chunks : list string) (failure : option exn)
    (prompt : string) (save_to_history : bool) (full_response : list string)
    s :
  n <= length chunks ->
  pulls n
    (AtYieldChunk prompt save_to_history full_response
       (LLMFacade.mk_stream chunks failure)) s
  = (map (fun chunk => Ok (Some chunk)) (take n chunks),
     AtYieldChunk prompt save_to_history (full_response ++ take n chunks)
       (LLMFacade.mk_stream (drop n chunks) failure),
     s).
Proof.
  revert chunks full_response.
  induction n as [| n IH]; intros chunks full_response Hn.
  - simpl. by rewrite app_nil_r.
  - destruct chunks as [| chunk chunks]; [simpl in Hn; lia |].
    simpl in Hn.
    change (pulls (S n)
              (AtYieldChunk prompt save_to_history full_response
                 (LLMFacade.mk_stream (chunk :: chunks) failure)) s)
      with (let '(outs, g'', s'') :=
              pulls n
                (AtYieldChunk prompt save_to_history
                   (full_response ++ [chunk])
                   (LLMFacade.mk_stream chunks failure)) s in
            (Ok (Some chunk) :: outs, g'', s'')).
    rewrite IH by lia. simpl. by rewrite <- app_assoc.
Qed.

Lemma pulls_next_eq (n : nat) (g g' : generator) s s' :
  next g s = next g' s' -> pulls (S n) g s = pulls (S n) g' s'.
Proof. intros Heq. simpl. by rewrite Heq. Qed.

(** X14. A caller that pulls no more fragments than the facade's iterator
    holds, and then abandons the generator, receives those fragments in
    order and leaves the history as it was: the interaction is recorded
    only by the pull that finds the iterator exhausted. *)
Theorem abandoned_stream_records_nothing prompt use_history save_to_history
    kwargs s (n : nat) :
  let stream :=
    opened (fst (ask facade_chat_stream facade_generate_stream prompt
                   use_history (merged_params kwargs s) s)) in
  let run :=
    pulls n (generate_stream prompt use_history save_to_history kwargs) s in
  n <= length (LLMFacade.chunks stream) ->
  fst (fst run)
  = map (fun chunk => Ok (Some chunk)) (take n (LLMFacade.chunks stream))
  /\ history (self (snd run)) = history (self s).
Proof.
  destruct (ask facade_chat_stream facade_generate_stream prompt use_history
              (merged_params kwargs s) s) as [outcome s1] eqn:Hask.
  destruct (ask_frame _ _ _ _ _ _ _ _ _ _ _ _ _ _ Hask) as (Hhist & _).
  cbv zeta.
  destruct n as [| n]; [by intros _ |].
  destruct outcome as [[chunks failure] | e]; intros Hn;
    [| simpl in Hn; lia].
  rewrite (pulls_next_eq n _ _ _ _
             (next_created_opened _ _ save_to_history _ _ _ _ Hask)).
  rewrite pulls_in_loop by exact Hn.
  split; [reflexivity | exact Hhist].
Qed.

(** With [save_to_history=False] a caller that exhausts the generator
    receives the same fragments and the history is unchanged. *)
Theorem stream_without_saving prompt use_history kwargs s (fuel : nat) :
  let stream :=
    opened (fst (ask facade_chat_stream facade_generate_stream prompt
                   use_history (merged_params kwargs s) s)) in
  length (LLMFacade.chunks stream) + 1 < fuel ->
  exists received s',
    consume fuel (generate_stream prompt use_history false kwargs) s
    = Some (Ok received, s')
    /\ received
       = LLMFacade.chunks stream ++ closing (LLMFacade.failure stream)
    /\ history (self s') = history (self s).
Proof.
  destruct (ask facade_chat_stream facade_generate_stream prompt use_history
              (merged_params kwargs s) s) as [outcome s1] eqn:Hask.
  destruct (ask_frame _ _ _ _ _ _ _ _ _ _ _ _ _ _ Hask) as (Hhist & _).
  destruct outcome as [[chunks failure] | e]; simpl; intros Hfuel.
  - rewrite (consume_next_eq fuel _ _ _ _
               (next_created_opened _ _ false _ _ _ _ Hask)).
    rewrite consume_in_loop by exact Hfuel.
    eexists _, _. split; [reflexivity |]. split; [reflexivity |].
    by destruct failure.
  - rewrite (stream_call_failure _ _ false _ _ _ _ fuel Hask) by lia.
    eexists _, _. split; [reflexivity |]. split; [reflexivity |].
    exact Hhist.
Qed.

(** X15. A caller that exhausts the generator has made the client call the
    facade exactly once, at the first pull: its streaming chat method on
    the rendered history followed by the prompt when [use_history] is set
    and the history is not empty, its plain streaming method otherwise. *)
Theorem stream_calls_facade_once prompt use_history save_to_history kwargs s
    (fuel : nat) :
  let stream :=
    opened (fst (ask facade_chat_stream facade_generate_stream prompt
                   use_history (merged_params kwargs s) s)) in
  rebinds "chat_stream" "messages" (merged_params kwargs s) = None ->
  rebinds "generate_stream" "prompt" (merged_params kwargs s) = None ->
  length (LLMFacade.chunks stream) + 1 < fuel ->
  exists received s',
    consume fuel (generate_stream prompt use_history save_to_history kwargs) s
    = Some (Ok received, s')
    /\ facade_calls (env s')
       = facade_calls (env s)
           ++ [expected_call true prompt use_history (merged_params kwargs s)
                 s].
Proof.
  destruct (ask facade_chat_stream facade_generate_stream prompt use_history
              (merged_params kwargs s) s) as [outcome s1] eqn:Hask.
  cbv zeta. intros Hchat Hplain.
  pose proof (ask_trace true _ _ _ _ _ _ _ _ _ _ Hchat Hplain Hask)
    as Htrace.
  destruct outcome as [[chunks failure] | e]; simpl; intros Hfuel.
  - rewrite (consume_next_eq fuel _ _ _ _
               (next_created_opened _ _ save_to_history _ _ _ _ Hask)).
    rewrite consume_in_loop by exact Hfuel.
    eexists _, _. split; [reflexivity |].
    destruct failure; [exact Htrace |].
    unfold closed, recorded. by destruct save_to_history.
  - rewrite (stream_call_failure _ _ save_to_history _ _ _ _ fuel Hask)
      by lia.
    eexists _, _. split; [reflexivity | exact Htrace].
Qed.
End FurtherStreamFacts.

(** ** Provider registry and cache, further *)

Section DictFacts.
Context {V : Type}.

Lemma dict_get_set_eq (k : string) (v : V) (d : list (string * V)) :
  dict_get k (dict_set k v d) = Some v.
Proof.
  induction d as [| [k' v'] d IH]; simpl.
  - by rewrite String.eqb_refl.
  - destruct (String.eqb_spec k k') as [-> | Hne]; simpl.
    + by rewrite String.eqb_refl.
    + by destruct (String.eqb_spec k k').
Qed.

Lemma dict_get_set_ne (k k0 : string) (v : V) (d : list (string * V)) :
  k0 <> k -> dict_get k0 (dict_set k v d) = dict_get k0 d.
Proof.
  intros Hne. induction d as [| [k' v'] d IH]; simpl.
  - by destruct (String.eqb_spec k0 k).
  - destruct (String.eqb_spec k k') as [-> | Hkk']; simpl.
    + by destruct (String.eqb_spec k0 k').
    + destruct (String.eqb_spec k0 k'); [reflexivity | exact IH].
Qed.


End DictFacts.

Section FurtherProviderFactoryFacts.
Context {FS : Type}.
Import LLMProviderFactory.

Implicit Types (s : state FS).


(** The cache holds only objects that were allocated, under registered
    keys, and no object under two keys. *)
Definition cache_sound s : Prop :=
  (forall k p, _provider_instances (self s) !! k = Some p ->
     LLMProvider.ident p < next_id (env s)
     /\ is_Some (dict_get k (_provider_registry (self s))))
  /\ (forall k1 k2 p1 p2,
        _provider_instances (self s) !! k1 = Some p1 ->
        _provider_instances (self s) !! k2 = Some p2 ->
        LLMProvider.ident p1 = LLMProvider.ident p2 -> k1 = k2).




(** X19. Registering a class again does not touch the cache: a request
    through the cache still returns the object that the replaced class
    built. *)
Theorem reregistration_keeps_cached_instance (name : string)
    (provider_class : LLMProvider.class FS) (api_key : option string)
    (config : option pyval) s (p : LLMProvider.t FS) :
  _provider_instances (self s) !! lower name = Some p ->
  get_provider name api_key config true
    (snd (register_provider name provider_class s))
  = (Ok p, snd (register_provider name provider_class s)).
Proof.
  intros Hcache.
  unfold get_provider, register_provider, logger_info, bind, modify,
    get_state, ret. simpl.
  by rewrite Hcache.
Qed.

(** X20. [clear_cache(name)] with a non-empty name evicts the object cached
    for that name and no other, so that the next request builds a new
    object; with the empty name, as with no name, it evicts every object.
    The registry is left alone. *)
Theorem clear_cache_evicts (name : string) s :
  (name <> "" ->
   _provider_instances (self (snd (clear_cache (Some name) s)))
     !! lower name = None
   /\ forall k, k <> lower name ->
        _provider_instances (self (snd (clear_cache (Some name) s))) !! k
        = _provider_instances (self s) !! k)
  /\ _provider_instances (self (snd (clear_cache (Some "") s))) = ∅
  /\ _provider_instances (self (snd (clear_cache None s))) = ∅
  /\ forall arg,
       _provider_registry (self (snd (clear_cache arg s)))
       = _provider_registry (self s).
Proof.
  split; [| by repeat split].
  intros Hname. destruct name as [| c rest]; [done |].
  unfold clear_cache, modify. simpl. split.
  - apply lookup_delete_eq.
  - intros k Hk. by apply lookup_delete_ne.
Qed.

(** X21. Two successive requests that bypass the cache each build an
    object of their own: the identities differ, and the cache is as it was
    before the first request. *)
Theorem uncached_providers_are_distinct (name : string)
    (api_key1 api_key2 : option string) (config1 config2 : option pyval)
    s s1 s2 (p1 p2 : LLMProvider.t FS) :
  get_provider name api_key1 config1 false s = (Ok p1, s1) ->
  get_provider name api_key2 config2 false s1 = (Ok p2, s2) ->
  LLMProvider.ident p1 <> LLMProvider.ident p2
  /\ _provider_instances (self s2) = _provider_instances (self s).
Proof.
  intros H1 H2.
  destruct (get_provider_uncached_fresh _ _ _ _ _ _ H1) as (Hid1 & Hnext & Hc1).
  destruct (get_provider_uncached_fresh _ _ _ _ _ _ H2) as (Hid2 & _ & Hc2).
  split; [lia | congruence].
Qed.
End FurtherProviderFactoryFacts.

Section CacheInvariant.
Context {FS : Type}.
Import LLMProviderFactory.

Implicit Types (s : state FS).

Lemma cache_sound_empty (registry : list (string * LLMProvider.class FS))
    (w : world) :
  cache_sound (mk_state (mk registry ∅) w).
Proof.
  split.
  - intros k p Hk. simpl in Hk. by rewrite lookup_empty in Hk.
  - intros k1 k2 p1 p2 Hk1. simpl in Hk1. by rewrite lookup_empty in Hk1.
Qed.

Lemma cache_sound_register (name : string)
    (provider_class : LLMProvider.class FS) s :
  cache_sound s -> cache_sound (snd (register_provider name provider_class s)).
Proof.
  intros [Hold Hinj].
  unfold register_provider, logger_info, bind, modify. simpl.
  split; simpl; [| exact Hinj].
  intros k p Hk. destruct (Hold k p Hk) as [Hid Hreg]. split; [exact Hid |].
  destruct (decide (k = lower name)) as [-> | Hne].
  - rewrite dict_get_set_eq. by eexists.
  - by rewrite dict_get_set_ne.
Qed.

Lemma cache_sound_get (name : string) (api_key : option string)
    (config : option pyval) (use_cache : bool) s :
  cache_sound s ->
  cache_sound (snd (get_provider name api_key config use_cache s)).
Proof.
  intros [Hold Hinj].
  unfold get_provider, instantiate, bind, get_state, when, modify, ret,
    raise.
  destruct (if use_cache then _ else None) as [cached |] eqn:Hcached;
    [by split |].
  destruct (dict_get (lower name) (_provider_registry (self s)))
    as [provider_class |] eqn:Hreg; [| by split].
  destruct (provider_class name _ config) as [b | e]; [| by split].
  destruct use_cache; simpl.
  - split; simpl.
    + intros k p Hk.
      destruct (decide (k = lower name)) as [-> | Hne].
      * rewrite lookup_insert_eq in Hk. injection Hk as <-. simpl.
        split; [lia | by eexists].
      * rewrite lookup_insert_ne in Hk by done.
        destruct (Hold k p Hk) as [Hid Hk']. split; [lia | exact Hk'].
    + intros k1 k2 p1 p2 Hk1 Hk2 Hid.
      destruct (decide (k1 = lower name)) as [-> | Hne1];
        destruct (decide (k2 = lower name)) as [-> | Hne2]; [reflexivity | | |].
      * rewrite lookup_insert_eq in Hk1. injection Hk1 as <-.
        rewrite lookup_insert_ne in Hk2 by done.
        destruct (Hold k2 p2 Hk2) as [Hlt _]. simpl in Hid. lia.
      * rewrite lookup_insert_eq in Hk2. injection Hk2 as <-.
        rewrite lookup_insert_ne in Hk1 by done.
        destruct (Hold k1 p1 Hk1) as [Hlt _]. simpl in Hid. lia.
      * rewrite lookup_insert_ne in Hk1, Hk2 by done. by eapply Hinj.
  - split; simpl; [| exact Hinj].
    intros k p Hk. destruct (Hold k p Hk) as [Hid Hk']. split; [lia | done].
Qed.

Lemma cache_sound_clear (provider_name : option string) s :
  cache_sound s -> cache_sound (snd (clear_cache provider_name s)).
Proof.
  intros [Hold Hinj]. unfold clear_cache, modify. simpl.
  destruct provider_name as [[| c rest] |];
    try (split; simpl; intros *; by rewrite lookup_empty).
  split; simpl.
  - intros k p Hk. apply lookup_delete_Some in Hk as [_ Hk]. by apply Hold.
  - intros k1 k2 p1 p2 Hk1 Hk2.
    apply lookup_delete_Some in Hk1 as [_ Hk1].
    apply lookup_delete_Some in Hk2 as [_ Hk2]. by eapply Hinj.
Qed.

(** X22. Registration, requests (through the cache or not, successful or
    not) and evictions keep the cache sound: every cached object has an
    identity that was allocated, sits under a key that is registered, and is
    cached under no second key, so that providers cached under different
    names are different objects. *)
Theorem cache_stays_sound s :
  cache_sound s ->
  (forall name provider_class,
      cache_sound (snd (register_provider name provider_class s)))
  /\ (forall name api_key config use_cache,
        cache_sound (snd (get_provider name api_key config use_cache s)))
  /\ (forall provider_name, cache_sound (snd (clear_cache provider_name s))).
Proof.
  intros Hsound. split; [| split]; intros *.
  - by apply cache_sound_register.
  - by apply cache_sound_get.
  - by apply cache_sound_clear.
Qed.
End CacheInvariant.

(** ** Client factory, further *)

Section FurtherClientFactoryFacts.
Context {FS : Type}.
Import LLMClientFactory.

Implicit Types (s : state FS) (kwargs : gmap string pyval).

(** When the configuration file cannot be opened or parsed,
    [load_config] logs the failure and raises it again; the configuration
    and the defaults that the factory held are kept. *)
Theorem load_config_failure_keeps_settings (config_path : string) (e : exn)
    s :
  load_config config_path (Raise e) s
  = (Raise e,
     mk_state (self s) (provider_factory s)
       (log_record ERROR ("Error loading config: " +:+ str_exn e) (env s))).
Proof.
  unfold load_config, try_except, bind, lift_result, logger, modify, raise.
  by destruct s as [[c p m] pf w].
Qed.

(** X23. [load_config] on a document that is an object: without a
    [defaults] entry the defaults become ['mock'] and ['mock-model']; with
    a [defaults] object that names a provider and a model, they become
    those names. Either way the document becomes the configuration and the
    call returns. *)
Theorem load_config_sets_defaults (config_path : string)
    (d : list (string * pyval)) s :
  (dict_get "defaults" d = None ->
   exists s',
     load_config config_path (Ok (PyDict d)) s = (Ok tt, s')
     /\ self s' = mk (Some (PyDict d)) (Some "mock") (Some "mock-model"))
  /\ (forall dd provider model,
        dict_get "defaults" d = Some (PyDict dd) ->
        dict_get "provider" dd = Some (PyStr provider) ->
        dict_get "model" dd = Some (PyStr model) ->
        exists s',
          load_config config_path (Ok (PyDict d)) s = (Ok tt, s')
          /\ self s' = mk (Some (PyDict d)) (Some provider) (Some model)).
Proof.
  split.
  - intros Hnone.
    unfold load_config, try_except, bind, lift_result, logger, modify,
      get_state, py_get. simpl. rewrite Hnone. simpl.
    eexists. split; reflexivity.
  - intros dd provider model Hdefaults Hprovider Hmodel.
    unfold load_config, try_except, bind, lift_result, logger, modify,
      get_state, py_get. simpl. rewrite Hdefaults. simpl.
    rewrite Hprovider, Hmodel. simpl.
    eexists. split; reflexivity.
Qed.

(** X24. When the [defaults] entry of the document is not an object,
    [load_config] raises, after it has replaced the configuration: the
    factory is left with the new configuration and the old defaults. *)
Theorem load_config_bad_defaults (config_path : string)
    (d : list (string * pyval)) (v : pyval) (e : exn) s :
  dict_get "defaults" d = Some v ->
  py_get v "provider" (PyStr "mock") = Raise e ->
  exists s',
    load_config config_path (Ok (PyDict d)) s = (Raise e, s')
    /\ _config (self s') = Some (PyDict d)
    /\ _default_provider (self s') = _default_provider (self s)
    /\ _default_model (self s') = _default_model (self s).
Proof.
  intros Hdefaults Hbad.
  unfold load_config, try_except, bind, lift_result, logger, modify,
    get_state, raise. simpl. rewrite Hdefaults. simpl. rewrite Hbad. simpl.
  eexists. repeat split.
Qed.

Lemma resolved_idem (explicit configured : option string) :
  resolved (resolved explicit configured) configured
  = resolved explicit configured.
Proof. by destruct explicit, configured. Qed.

(** Leaving out the provider or the model name is the same as passing
    the configured default: the call gives the same outcome and the same
    state. *)
Theorem omitted_names_are_the_defaults (fuel : nat)
    (provider_name model_name : option string) (api_key : option string)
    (history_size : Z) kwargs s :
  create_client fuel provider_name model_name api_key history_size kwargs s
  = create_client fuel
      (resolved provider_name (_default_provider (self s)))
      (resolved model_name (_default_model (self s)))
      api_key history_size kwargs s.
Proof.
  destruct fuel as [| fuel]; [reflexivity |].
  rewrite !create_client_step. by rewrite !resolved_idem.
Qed.

(** A request through the cache leaves the object it returns in the
    cache. *)
Lemma get_provider_caches (name : string) (api_key : option string)
    (config : option pyval) (ps ps' : LLMProviderFactory.state FS)
    (p : LLMProvider.t FS) :
  LLMProviderFactory.get_provider name api_key config true ps = (Ok p, ps') ->
  LLMProviderFactory._provider_instances (LLMProviderFactory.self ps')
    !! lower name = Some p.
Proof.
  unfold LLMProviderFactory.get_provider, LLMProviderFactory.instantiate,
    bind, get_state, when, modify, ret, raise. simpl.
  destruct (LLMProviderFactory._provider_instances
              (LLMProviderFactory.self ps) !! lower name)
    as [cached |] eqn:Hcache; [by intros [= <- <-] |].
  destruct (dict_get _ _) as [provider_class |]; [| discriminate].
  destruct (provider_class name _ config) as [b | e]; [| discriminate].
  intros [= <- <-]. simpl. apply lookup_insert_eq.
Qed.

(** What a successful attempt to build a client has done. *)
Lemma build_client_ok (p m : string) (api_key : option string)
    (history_size : Z) kwargs s (client : LLMClient.t FS) s1 :
  build_client p m api_key history_size kwargs s = (Ok client, s1) ->
  (0 <= history_size)%Z
  /\ LLMClient.history client = LLMInteractionHistory.mk history_size []
  /\ LLMClient._default_params client = ∅
  /\ exists provider,
       LLMProviderFactory._provider_instances (provider_factory s1)
         !! lower p = Some provider
       /\ LLMProvider.supports_model m provider = Ok true
       /\ LLMProvider.create_facade (LLMProvider.impl provider) m kwargs
          = Ok (LLMClient.facade client).
Proof.
  unfold build_client, bind at 1, on_provider_factory.
  destruct (LLMProviderFactory.get_provider p api_key _ true _)
    as [[provider | e] ps] eqn:Hget; [| discriminate].
  apply get_provider_caches in Hget.
  unfold when, raise, ret, lift_result, logger, modify, bind.
  destruct (LLMProvider.supports_model m provider) as [[|] | e] eqn:Hsup;
    simpl; [| | discriminate].
  - destruct (LLMProvider.create_facade _ m kwargs) as [f | e] eqn:Hfacade;
      simpl; [| discriminate].
    unfold LLMClient.init, LLMInteractionHistory.init.
    destruct (Z.ltb_spec history_size 0) as [Hneg | Hpos]; simpl;
      [discriminate |].
    intros [= <- <-]. simpl. split; [exact Hpos |]. split; [reflexivity |].
    split; [reflexivity |]. by exists provider.
  - by destruct (LLMProvider.get_available_models _).
Qed.

(** X25. Every client that [create_client] returns, from the requested
    provider or from the fallback, starts with an empty history of the
    requested capacity, which is therefore not negative, and with no
    default parameters. *)
Theorem created_client_starts_empty (fuel : nat)
    (provider_name model_name : option string) (api_key : option string)
    (history_size : Z) kwargs s (client : LLMClient.t FS) s' :
  create_client fuel provider_name model_name api_key history_size kwargs s
  = Some (Ok client, s') ->
  (0 <= history_size)%Z
  /\ LLMClient.history client = LLMInteractionHistory.mk history_size []
  /\ LLMClient._default_params client = ∅.
Proof.
  revert provider_name model_name api_key kwargs s.
  induction fuel as [| fuel IH];
    intros provider_name model_name api_key kwargs s; [discriminate |].
  rewrite create_client_step.
  destruct (resolved provider_name _) as [p |]; [| discriminate].
  destruct (resolved model_name _) as [m |]; [| discriminate].
  destruct (build_client p m api_key history_size kwargs s)
    as [[built | e] s1] eqn:Hbuild.
  - intros [= <- <-].
    destruct (build_client_ok _ _ _ _ _ _ _ _ Hbuild) as (H0 & Hh & Hp & _).
    by repeat split.
  - destruct (fallback_applies (_config (self s1)) p) as [[|] | e'];
      [apply IH | discriminate | discriminate].
Qed.

(** X26. Once the provider of a name is cached, the [api_key] argument of
    [create_client] has no effect: the cached object, built with the key of
    an earlier call, serves every later call. *)
Theorem cached_provider_ignores_api_key (fuel : nat) (p : string)
    (model_name : option string) (api_key1 api_key2 : option string)
    (history_size : Z) kwargs s (provider : LLMProvider.t FS) :
  LLMProviderFactory._provider_instances (provider_factory s) !! lower p
  = Some provider ->
  create_client fuel (Some p) model_name api_key1 history_size kwargs s
  = create_client fuel (Some p) model_name api_key2 history_size kwargs s.
Proof.
  intros Hcache. destruct fuel as [| fuel]; [reflexivity |].
  rewrite !create_client_step. simpl.
  destruct (resolved model_name _) as [m |]; [| reflexivity].
  assert (Hsame : build_client p m api_key1 history_size kwargs s
                  = build_client p m api_key2 history_size kwargs s).
  { unfold build_client, bind at 1 3, on_provider_factory.
    unfold LLMProviderFactory.get_provider, bind, get_state. simpl.
    by rewrite Hcache. }
  by rewrite Hsame.
Qed.


End FurtherClientFactoryFacts.

(** ** The mock provider as the fallback *)

Section MockProviderFacts.
Context {FS : Type}.
Variable MockFacade :
  string -> string -> option string -> gmap string pyval -> LLMFacade.t FS.
Import LLMClientFactory.

Implicit Types (s : state FS) (kwargs : gmap string pyval).

(** The provider factory serves ['mock'] with the mock provider: the class
    registered under that key is [MockProvider], and so is the class of the
    object cached under it, if there is one. *)
Definition mock_ready (pf : LLMProviderFactory.t FS) : Prop :=
  dict_get "mock" (LLMProviderFactory._provider_registry pf)
  = Some (MockProvider.class MockFacade)
  /\ forall q,
       LLMProviderFactory._provider_instances pf !! "mock" = Some q ->
       exists n k c,
         MockProvider.class MockFacade n k c = Ok (LLMProvider.impl q).



(** The request for ['mock'] that [create_client] makes is served by an
    object of the mock provider. *)
Lemma get_mock_provider (api_key : option string) (config : option pyval) s :
  mock_ready (provider_factory s) ->
  exists provider s0 n k c,
    on_provider_factory
      (LLMProviderFactory.get_provider "mock" api_key config true) s
    = (Ok provider, s0)
    /\ MockProvider.class MockFacade n k c = Ok (LLMProvider.impl provider)
    /\ self s0 = self s.
Proof.
  intros [Hreg Hcache].
  unfold on_provider_factory, LLMProviderFactory.get_provider,
    LLMProviderFactory.instantiate, bind, get_state, when, modify, ret.
  change (lower "mock") with "mock". simpl.
  destruct (LLMProviderFactory._provider_instances (provider_factory s)
              !! "mock") as [q |] eqn:Hq.
  - destruct (Hcache q eq_refl) as (n & k & c & Hclass).
    exists q. eexists. exists n, k, c.
    split; [reflexivity |]. split; [exact Hclass | reflexivity].
  - rewrite Hreg. simpl. eexists _, _, _, _, _.
    split; [reflexivity |]. split; reflexivity.
Qed.

(** X29. On a factory that serves ['mock'] with the mock provider,
    [create_client('mock', model)] for a model outside the catalog raises
    the "model not supported" error, whose message lists the three models
    of the mock provider in the order of its catalog. *)
Theorem mock_rejects_unknown_model (fuel : nat) (m : string)
    (api_key : option string) (history_size : Z) kwargs s :
  mock_ready (provider_factory s) ->
  existsb (String.eqb m) MockProvider._available_models = false ->
  fallback_applies (_config (self s)) "mock" = Ok false ->
  exists s',
    create_client (S fuel) (Some "mock") (Some m) api_key history_size
      kwargs s
    = Some (Raise (ValueError
                     ("Model '" +:+ m
                        +:+ "' not supported by provider 'mock'. Available models: ['mock-model', 'mock-model-large', 'mock-model-fast']")),
            s').
Proof.
  intros Hready Habsent Hfallback.
  destruct (get_mock_provider api_key (kwargs !! "provider_config") s Hready)
    as (provider & s0 & n & k & c & Hget & Hclass & Hself).
  injection Hclass as Himpl.
  rewrite create_client_step. simpl.
  unfold build_client, bind at 1. rewrite Hget.
  unfold when, raise, ret, lift_result, bind, LLMProvider.supports_model.
  rewrite <- Himpl. simpl. simpl in Habsent. rewrite Habsent. simpl.
  rewrite Hself, Hfallback. eexists. reflexivity.
Qed.


End MockProviderFacts.

(** * Worked instances, further *)

(** A history of three interactions, and a full one of capacity two. *)
Definition three_stored : LLMInteractionHistory.t :=
  LLMInteractionHistory.mk 50
    [stored_entry "a" "1"; stored_entry "b" "2"; stored_entry "c" "3"].
Definition full_of_two : LLMInteractionHistory.t :=
  LLMInteractionHistory.mk 2 [stored_entry "a" "1"; stored_entry "b" "2"].

(** An error response, as a facade returns it for a failed request. *)
Definition refusal : LLMResponse.t :=
  LLMResponse.mk "" "stub-model" "stub" None None 0 (Some "rate limited").

(** A constructor for the facades of the mock provider, with methods that
    answer ["ok"]. *)
Definition mock_facade_stub (model_name provider_name : string)
    (api_key : option string) (config : gmap string pyval)
  : LLMFacade.t unit :=
  LLMFacade.mk model_name provider_name api_key config tt
    (fun _ _ a => (Ok (answer "ok"), a))
    (fun _ _ a => (Ok no_fragments, a))
    (fun _ _ a => (Ok (answer "ok"), a))
    (fun _ _ a => (Ok no_fragments, a)).

(** A client factory with the mock provider registered and the fallback
    enabled by the configuration [{"fallback_to_mock": true}]. *)
Definition mock_factory : LLMClientFactory.state unit :=
  let ps :=
    snd (LLMProviderFactory.register_provider "mock"
           (MockProvider.class mock_facade_stub)
           (LLMProviderFactory.mk_state (LLMProviderFactory.mk [] ∅)
              quiet_world)) in
  snd (LLMClientFactory.load_config "models_config.json"
         (Ok (PyDict [("fallback_to_mock", PyBool true)]))
         (LLMClientFactory.mk_state (LLMClientFactory.mk None None None)
            (LLMProviderFactory.self ps) (LLMProviderFactory.env ps))).

Lemma two_most_recent_of_three :
  (0 < 2)%Z
  /\ LLMInteractionHistory.get_history (Some 2%Z) three_stored
     = [stored_entry "b" "2"; stored_entry "c" "3"]
  /\ length (LLMInteractionHistory.get_history (Some 2%Z) three_stored) = 2.
Proof.
  assert (Hpos : (0 < 2)%Z) by lia.
  split; [exact Hpos |].
  exact (get_history_most_recent 2 three_stored Hpos).
Defined.

Lemma minus_one_drops_the_oldest :
  (-1 < 0)%Z
  /\ LLMInteractionHistory.get_history (Some (-1)%Z) three_stored
     = [stored_entry "b" "2"; stored_entry "c" "3"]
  /\ length (LLMInteractionHistory.get_history (Some (-1)%Z) three_stored)
     = 2.
Proof.
  assert (Hneg : (-1 < 0)%Z) by lia.
  split; [exact Hneg |].
  exact (get_history_negative_drops_oldest (-1) three_stored Hneg).
Defined.

Lemma capacity_two_after_six_operations :
  let ops :=
    [OpAdd "a" (answer "1"); OpAdd "b" (answer "2"); OpClear;
     OpAdd "c" (answer "3"); OpAdd "d" (answer "4"); OpAdd "e" (answer "5")]
  in
  LLMInteractionHistory.init 2 = Ok (LLMInteractionHistory.mk 2 [])
  /\ LLMInteractionHistory.size
       (run_ops ops (LLMInteractionHistory.mk 2 [])) <= Z.to_nat 2
  /\ LLMInteractionHistory.max_history
       (run_ops ops (LLMInteractionHistory.mk 2 [])) = 2%Z.
Proof.
  cbv zeta. split; [reflexivity |].
  exact (history_never_exceeds_capacity 2 (LLMInteractionHistory.mk 2 []) _
           eq_refl).
Defined.

Lemma full_history_evicts_first :
  (0 < LLMInteractionHistory.max_history full_of_two)%Z
  /\ LLMInteractionHistory.size full_of_two
     <= Z.to_nat (LLMInteractionHistory.max_history full_of_two)
  /\ LLMInteractionHistory._history
       (LLMInteractionHistory.add_interaction "c" (answer "3") full_of_two)
     = [stored_entry "b" "2"; stored_entry "c" "3"].
Proof.
  assert (Hpos : (0 < LLMInteractionHistory.max_history full_of_two)%Z)
    by (simpl; lia).
  assert (Hcap : LLMInteractionHistory.size full_of_two
                 <= Z.to_nat (LLMInteractionHistory.max_history full_of_two))
    by (vm_compute; lia).
  split; [exact Hpos |]. split; [exact Hcap |].
  exact (add_interaction_evicts_only_when_full "c" (answer "3") full_of_two
           Hpos Hcap).
Defined.

Lemma refusal_is_returned_unrecorded :
  let s := client_on (scripted (Ok refusal) no_fragments) [] in
  (exists s1,
     LLMClient.ask LLMClient.facade_chat LLMClient.facade_generate "hello"
       false (LLMClient.merged_params ∅ s) s = (Ok refusal, s1))
  /\ exists s',
       LLMClient.generate "hello" false true ∅ s = (Ok refusal, s')
       /\ LLMClient.history (LLMClient.self s')
          = LLMClient.history (LLMClient.self s).
Proof.
  cbv zeta. split; [eexists; reflexivity |].
  eapply (generate_records_clean_responses (FS := unit) "hello" false true ∅).
  reflexivity.
Defined.

Lemma generate_with_history_calls_chat :
  let s :=
    client_on (scripted (Ok (answer "so")) no_fragments)
      [stored_entry "q1" "a1"] in
  rebinds "chat" "messages" (LLMClient.merged_params ∅ s) = None
  /\ rebinds "generate" "prompt" (LLMClient.merged_params ∅ s) = None
  /\ facade_calls
       (LLMClient.env (snd (LLMClient.generate "q2" true true ∅ s)))
     = [CallChat
          [user_message "q1"; assistant_message "a1"; user_message "q2"] ∅].
Proof.
  cbv zeta. split; [reflexivity |]. split; [reflexivity |].
  exact (generate_calls_facade_once (FS := unit) "q2" true true ∅
           (client_on (scripted (Ok (answer "so")) no_fragments)
              [stored_entry "q1" "a1"]) eq_refl eq_refl).
Defined.

Lemma chat_absorbs_connection_error :
  let e := Exception "ConnectionError" "connection refused" in
  let s := client_on (scripted (Raise e) no_fragments) [] in
  (exists s1,
     LLMClient.facade_chat [user_message "hello"]
       (LLMClient.merged_params ∅ s) s = (Raise e, s1))
  /\ exists r s',
       LLMClient.chat [user_message "hello"] true ∅ s = (Ok r, s')
       /\ LLMResponse.content r = ""
       /\ LLMResponse.error r = Some (str_exn e)
       /\ LLMClient.history (LLMClient.self s')
          = LLMClient.history (LLMClient.self s).
Proof.
  cbv zeta. split; [eexists; reflexivity |].
  eapply chat_absorbs_facade_failure. reflexivity.
Defined.

(** A user message that holds a role and nothing else. *)
Definition bare_user_message : message := <["role" := "user"]> ∅.

Lemma chat_loses_answer_to_bare_message :
  let messages := [role_message "system" "be brief"] ++ bare_user_message :: []
  in
  let s := client_on (scripted (Ok (answer "so")) no_fragments) [] in
  bare_user_message !! "role" = Some "user"
  /\ bare_user_message !! "content" = None
  /\ (exists s1,
        LLMClient.facade_chat messages (LLMClient.merged_params ∅ s) s
        = (Ok (answer "so"), s1))
  /\ LLMResponse.error (answer "so") = None
  /\ exists r s',
       LLMClient.chat messages true ∅ s = (Ok r, s')
       /\ LLMResponse.content r = ""
       /\ LLMResponse.error r = Some "'content'"
       /\ LLMClient.history (LLMClient.self s')
          = LLMClient.history (LLMClient.self s).
Proof.
  cbv zeta. split; [reflexivity |]. split; [reflexivity |].
  split; [eexists; reflexivity |]. split; [reflexivity |].
  eapply chat_user_message_without_content;
    [reflexivity | reflexivity | constructor | reflexivity | reflexivity].
Defined.

Lemma chat_of_system_message_alone :
  let s := client_on (scripted (Ok (answer "so")) no_fragments) [] in
  Forall (fun m' : message => m' !! "role" <> Some "user")
    [role_message "system" "be brief"]
  /\ (exists s1,
        LLMClient.facade_chat [role_message "system" "be brief"]
          (LLMClient.merged_params ∅ s) s = (Ok (answer "so"), s1))
  /\ exists s',
       LLMClient.chat [role_message "system" "be brief"] true ∅ s
       = (Ok (answer "so"), s')
       /\ LLMClient.history (LLMClient.self s')
          = LLMClient.history (LLMClient.self s).
Proof.
  cbv zeta.
  assert (Hnone : Forall (fun m' : message => m' !! "role" <> Some "user")
                    [role_message "system" "be brief"]).
  { constructor; [| constructor]. vm_compute. discriminate. }
  split; [exact Hnone |]. split; [eexists; reflexivity |].
  eapply chat_without_user_message; [exact Hnone | reflexivity].
Defined.

Lemma two_shots_send_five_messages :
  let s :=
    client_on (scripted (Ok (answer "so")) no_fragments)
      [stored_entry "a" "1"; stored_entry "b" "2"; stored_entry "c" "3"] in
  (0 < 2)%Z
  /\ rebinds "chat" "messages" (LLMClient._default_params (LLMClient.self s))
     = None
  /\ exists messages,
       facade_calls
         (LLMClient.env (snd (LLMClient.multi_shot_generate "d" 2 ∅ s)))
       = [CallChat messages ∅]
       /\ messages
          = [user_message "b"; assistant_message "2"; user_message "c";
             assistant_message "3"; user_message "d"]
       /\ length messages = 5.
Proof.
  cbv zeta.
  assert (Hpos : (0 < 2)%Z) by lia.
  split; [exact Hpos |]. split; [reflexivity |].
  exact (multi_shot_message_count (FS := unit) "d" 2
           (client_on (scripted (Ok (answer "so")) no_fragments)
              [stored_entry "a" "1"; stored_entry "b" "2";
               stored_entry "c" "3"]) Hpos eq_refl).
Defined.

Lemma multi_shot_records_only_the_prompt :
  let s :=
    client_on (scripted (Ok (answer "so")) no_fragments)
      [stored_entry "a" "1"] in
  "b" <> ""
  /\ (exists s1,
        LLMClient.facade_chat
          (LLMInteractionHistory.get_as_messages (Some 3%Z)
             (LLMClient.history (LLMClient.self s)) ++ [user_message "b"])
          (LLMClient.merged_params ∅ s) s = (Ok (answer "so"), s1))
  /\ LLMResponse.error (answer "so") = None
  /\ exists s',
       LLMClient.multi_shot_generate "b" 3 ∅ s = (Ok (answer "so"), s')
       /\ LLMClient.history (LLMClient.self s')
          = LLMInteractionHistory.add_interaction "b" (answer "so")
              (LLMClient.history (LLMClient.self s)).
Proof.
  cbv zeta.
  assert (Hne : "b" <> "") by discriminate.
  split; [exact Hne |]. split; [eexists; reflexivity |].
  split; [reflexivity |].
  eapply multi_shot_records_prompt; [exact Hne | reflexivity | reflexivity].
Defined.

Lemma multi_shot_with_saving_off :
  let s :=
    client_on (scripted (Ok (answer "so")) no_fragments)
      [stored_entry "a" "1"] in
  let kwargs : gmap string pyval := {["save_to_history" := PyBool false]} in
  kwargs !! "save_to_history" = Some (PyBool false)
  /\ truthy (PyBool false) = false
  /\ rebinds "LLMClient.chat" "messages" kwargs = None
  /\ LLMClient.history
       (LLMClient.self (snd (LLMClient.multi_shot_generate "b" 3 kwargs s)))
     = LLMClient.history (LLMClient.self s).
Proof.
  cbv zeta. split; [reflexivity |]. split; [reflexivity |].
  split; [reflexivity |].
  exact (multi_shot_forwards_save_flag (FS := unit) "b" 3
           {["save_to_history" := PyBool false]} (PyBool false) _
           eq_refl eq_refl eq_refl).
Defined.

(** A facade whose iterator yields three fragments and stops. *)
Definition three_fragments : LLMFacade.stream :=
  LLMFacade.mk_stream ["one "; "two "; "three"] None.

Lemma two_pulls_of_three_record_nothing :
  let s := client_on (scripted (Ok (answer "")) three_fragments) [] in
  let run := pulls 2 (LLMClient.generate_stream "hello" false true ∅) s in
  2 <= length (LLMFacade.chunks three_fragments)
  /\ fst (fst run) = [Ok (Some "one "); Ok (Some "two ")]
  /\ LLMClient.history (LLMClient.self (snd run))
     = LLMClient.history (LLMClient.self s).
Proof.
  cbv zeta.
  assert (Hn : 2 <= length (LLMFacade.chunks three_fragments))
    by (simpl; lia).
  split; [exact Hn |].
  exact (abandoned_stream_records_nothing (FS := unit) "hello" false true ∅
           (client_on (scripted (Ok (answer "")) three_fragments) []) 2 Hn).
Defined.

Lemma exhausted_stream_with_saving_off :
  let s := client_on (scripted (Ok (answer "")) three_fragments) [] in
  length (LLMFacade.chunks three_fragments) + 1 < 5
  /\ exists received s',
       LLMClient.consume 5 (LLMClient.generate_stream "hello" false false ∅)
         s = Some (Ok received, s')
       /\ received = ["one "; "two "; "three"]
       /\ LLMClient.history (LLMClient.self s')
          = LLMClient.history (LLMClient.self s).
Proof.
  cbv zeta.
  assert (Hfuel : length (LLMFacade.chunks three_fragments) + 1 < 5)
    by (simpl; lia).
  split; [exact Hfuel |].
  exact (stream_without_saving (FS := unit) "hello" false ∅
           (client_on (scripted (Ok (answer "")) three_fragments) []) 5
           Hfuel).
Defined.

Lemma exhausted_stream_called_facade_once :
  let s := client_on (scripted (Ok (answer "")) three_fragments) [] in
  rebinds "chat_stream" "messages" (LLMClient.merged_params ∅ s) = None
  /\ rebinds "generate_stream" "prompt" (LLMClient.merged_params ∅ s) = None
  /\ length (LLMFacade.chunks three_fragments) + 1 < 5
  /\ exists received s',
       LLMClient.consume 5 (LLMClient.generate_stream "hello" true true ∅) s
       = Some (Ok received, s')
       /\ facade_calls (LLMClient.env s') = [CallGenerateStream "hello" ∅].
Proof.
  cbv zeta.
  assert (Hfuel : length (LLMFacade.chunks three_fragments) + 1 < 5)
    by (simpl; lia).
  split; [reflexivity |]. split; [reflexivity |]. split; [exact Hfuel |].
  exact (stream_calls_facade_once (FS := unit) "hello" true true ∅
           (client_on (scripted (Ok (answer "")) three_fragments) []) 5
           eq_refl eq_refl Hfuel).
Defined.




(** The provider factory after a first request for ['mock'] with a key. *)
Definition requested_once : LLMProviderFactory.state unit :=
  snd (LLMProviderFactory.get_provider "mock" (Some "first") None true
         registered).

Lemma cached_mock_survives_reregistration :
  let cls := stub_provider ["other-model"] in
  let s1 :=
    snd (LLMProviderFactory.register_provider "mock" cls requested_once) in
  exists p,
    LLMProviderFactory._provider_instances
      (LLMProviderFactory.self requested_once) !! lower "mock" = Some p
    /\ LLMProvider.get_available_models (LLMProvider.impl p)
       = Ok ["mock-model"; "mock-model-large"; "mock-model-fast"]
    /\ LLMProviderFactory.get_provider "mock" None None true s1 = (Ok p, s1).
Proof.
  cbv zeta. eexists. split; [reflexivity |]. split; [reflexivity |].
  exact (reregistration_keeps_cached_instance "mock"
           (stub_provider ["other-model"]) None None requested_once _
           eq_refl).
Defined.

Lemma two_uncached_mock_providers :
  exists p1 s1 p2 s2,
    LLMProviderFactory.get_provider "mock" None None false registered
    = (Ok p1, s1)
    /\ LLMProviderFactory.get_provider "mock" None None false s1 = (Ok p2, s2)
    /\ LLMProvider.ident p1 <> LLMProvider.ident p2
    /\ LLMProviderFactory._provider_instances (LLMProviderFactory.self s2)
       = LLMProviderFactory._provider_instances
           (LLMProviderFactory.self registered).
Proof.
  eexists _, _, _, _.
  split; [lazy; reflexivity |]. split; [lazy; reflexivity |].
  eapply (uncached_providers_are_distinct "mock" None None None None
            registered); lazy; reflexivity.
Defined.

Lemma requested_factory_stays_sound :
  cache_sound registered
  /\ cache_sound requested_once
  /\ cache_sound
       (snd (LLMProviderFactory.register_provider "openai"
               (stub_provider ["gpt"]) requested_once))
  /\ cache_sound (snd (LLMProviderFactory.clear_cache (Some "mock")
                         requested_once)).
Proof.
  assert (Hinit : cache_sound registered)
    by exact (cache_sound_empty
                (LLMProviderFactory._provider_registry
                   (LLMProviderFactory.self registered)) _).
  destruct (cache_stays_sound registered Hinit) as (_ & Hget & _).
  pose proof (Hget "mock" (Some "first") None true) as Hrequested.
  destruct (cache_stays_sound requested_once Hrequested)
    as (Hregister & _ & Hclear).
  split; [exact Hinit |]. split; [exact Hrequested |].
  split; [apply Hregister | apply Hclear].
Defined.

Lemma defaults_given_as_a_string :
  let d := [("defaults", PyStr "openai")] in
  dict_get "defaults" d = Some (PyStr "openai")
  /\ exists e,
       LLMClientFactory.py_get (PyStr "openai") "provider" (PyStr "mock")
       = Raise e
       /\ exists s',
            LLMClientFactory.load_config "models_config.json" (Ok (PyDict d))
              unconfigured = (Raise e, s')
            /\ LLMClientFactory._config (LLMClientFactory.self s')
               = Some (PyDict d)
            /\ LLMClientFactory._default_provider (LLMClientFactory.self s')
               = None
            /\ LLMClientFactory._default_model (LLMClientFactory.self s')
               = None.
Proof.
  cbv zeta. split; [reflexivity |]. eexists. split; [reflexivity |].
  exact (load_config_bad_defaults "models_config.json"
           [("defaults", PyStr "openai")] (PyStr "openai") _ unconfigured
           eq_refl eq_refl).
Defined.

Lemma fallback_client_starts_empty :
  exists client s',
    LLMClientFactory.create_client 2 (Some "openai") (Some "gpt") None 7 ∅
      fallback_enabled = Some (Ok client, s')
    /\ (0 <= 7)%Z
    /\ LLMClient.history client = LLMInteractionHistory.mk 7 []
    /\ LLMClient._default_params client = ∅.
Proof.
  eexists _, _. split; [reflexivity |].
  eapply (created_client_starts_empty 2 (Some "openai") (Some "gpt") None 7 ∅
            fallback_enabled).
  reflexivity.
Defined.

(** A client factory whose provider factory has served ['mock'] once. *)
Definition warmed_up : LLMClientFactory.state unit :=
  LLMClientFactory.mk_state (LLMClientFactory.mk None None None)
    (LLMProviderFactory.self requested_once)
    (LLMProviderFactory.env requested_once).

Lemma second_key_is_ignored :
  exists provider,
    LLMProviderFactory._provider_instances
      (LLMClientFactory.provider_factory warmed_up) !! lower "mock"
    = Some provider
    /\ LLMProvider.api_key (LLMProvider.impl provider) = Some "first"
    /\ LLMClientFactory.create_client 1 (Some "mock") (Some "mock-model")
         (Some "second") 50 ∅ warmed_up
       = LLMClientFactory.create_client 1 (Some "mock") (Some "mock-model")
           None 50 ∅ warmed_up.
Proof.
  eexists. split; [reflexivity |]. split; [reflexivity |].
  exact (cached_provider_ignores_api_key 1 "mock" (Some "mock-model")
           (Some "second") None 50 ∅ warmed_up _ eq_refl).
Defined.


Lemma mock_factory_ready :
  mock_ready mock_facade_stub (LLMClientFactory.provider_factory mock_factory).
Proof.
  split; [reflexivity |].
  intros q Hq. exfalso. revert Hq.
  change (LLMProviderFactory._provider_instances
            (LLMClientFactory.provider_factory mock_factory))
    with (∅ : gmap string (LLMProvider.t unit)).
  by rewrite lookup_empty.
Qed.

Lemma mock_rejects_gpt :
  mock_ready mock_facade_stub (LLMClientFactory.provider_factory mock_factory)
  /\ existsb (String.eqb "gpt-4") MockProvider._available_models = false
  /\ LLMClientFactory.fallback_applies
       (LLMClientFactory._config (LLMClientFactory.self mock_factory)) "mock"
     = Ok false
  /\ exists s',
       LLMClientFactory.create_client 1 (Some "mock") (Some "gpt-4") None 50
         ∅ mock_factory
       = Some (Raise (ValueError
                        "Model 'gpt-4' not supported by provider 'mock'. Available models: ['mock-model', 'mock-model-large', 'mock-model-fast']"),
               s').
Proof.
  split; [exact mock_factory_ready |]. split; [reflexivity |].
  split; [reflexivity |].
  exact (mock_rejects_unknown_model mock_facade_stub 0 "gpt-4" None 50 ∅
           mock_factory mock_factory_ready eq_refl eq_refl).
Defined.

